(** * b3_MCP_Tool_Simple/agent.py: the response scanner

    A shallow embedding of [save_image_from_response], of the text loop of
    [main] and of the top-level [try]/[except] of the script, together with
    the part of Python's [base64]/[binascii] modules that the script calls.

    Conventions.
    - A Python [str] is a [string]; a character is its code point, so the
      embedding covers the code points below 256.
    - A Python [bytes] object is a [list byte].
    - A [dict] keyed by strings is a [gmap string _].
    - A raised exception is the [Raise] result of the [Result] type. *)

From Stdlib Require Import NArith Ascii String DecimalString Lia.
From Stdlib.Strings Require Import Byte.
From stdpp Require Import gmap strings list.

Local Open Scope string_scope.

(** ** Exceptions *)

(** The exception classes that occur in the script and in the library
    functions it calls, with Python's built-in class hierarchy. *)
Inductive ExcType : Set :=
  | BaseException
  | Exception
  | BaseExceptionGroup
  | ExceptionGroup
  | KeyboardInterrupt
  | SystemExit
  | GeneratorExit
  | CancelledError
  | AttributeError
  | TypeError
  | ValueError
  | binascii_Error
  | OSError
  | RuntimeError.

Global Instance ExcType_eq_dec : EqDecision ExcType.
Proof. solve_decision. Defined.

(** The direct base classes, as Python declares them. *)
Definition bases (c : ExcType) : list ExcType :=
  match c with
  | BaseException => []
  | Exception => [BaseException]
  | BaseExceptionGroup => [BaseException]
  | ExceptionGroup => [BaseExceptionGroup; Exception]
  | KeyboardInterrupt => [BaseException]
  | SystemExit => [BaseException]
  | GeneratorExit => [BaseException]
  | CancelledError => [BaseException]
  | AttributeError => [Exception]
  | TypeError => [Exception]
  | ValueError => [Exception]
  | binascii_Error => [ValueError]
  | OSError => [Exception]
  | RuntimeError => [Exception]
  end.

(** [issubclass c d], by following [bases]; the hierarchy has depth 3. *)
Fixpoint issubclass_fuel (fuel : nat) (c d : ExcType) : bool :=
  bool_decide (c = d) ||
  match fuel with
  | O => false
  | S k => existsb (fun b => issubclass_fuel k b d) (bases c)
  end.

Definition issubclass : ExcType -> ExcType -> bool := issubclass_fuel 3.

Record PyExc : Set := mkExc { exc_type : ExcType; exc_str : string }.

Definition isinstance (e : PyExc) (c : ExcType) : bool :=
  issubclass (exc_type e) c.

(** ** Results of fallible code *)

Inductive Result (A : Type) : Type :=
  | Ok (a : A)
  | Raise (e : PyExc).
Arguments Ok {A} a.
Arguments Raise {A} e.

Global Instance Result_ret : MRet Result := fun A a => Ok a.
Global Instance Result_bind : MBind Result := fun A B f m =>
  match m with
  | Ok a => f a
  | Raise e => Raise e
  end.

(** ** Python's [base64.b64decode] and [base64.b64encode] *)

Module Base64.

Local Open Scope N_scope.

(** [table_b2a_base64]: the alphabet of RFC 4648. *)
Definition alphabet : string :=
  "ABCDEFGHIJKLMNOPQRSTUVWXYZabcdefghijklmnopqrstuvwxyz0123456789+/".

Definition BASE64_PAD : ascii := "="%char.

Definition table_b2a_base64 (n : N) : ascii :=
  match String.get (N.to_nat n) alphabet with
  | Some c => c
  | None => BASE64_PAD
  end.

(** [table_a2b_base64]: the value of an alphabet character; every other
    character has no value (the C table holds -1 there). *)
Definition table_a2b_base64 (c : ascii) : option N :=
  let n := N_of_ascii c in
  if (65 <=? n) && (n <=? 90) then Some (n - 65)
  else if (97 <=? n) && (n <=? 122) then Some (n - 97 + 26)
  else if (48 <=? n) && (n <=? 57) then Some (n - 48 + 52)
  else if n =? 43 then Some 62
  else if n =? 47 then Some 63
  else None.

(** A value stored into an [unsigned char] of the output buffer. *)
Definition to_uchar (n : N) : byte :=
  match Byte.of_N (n mod 256) with
  | Some b => b
  | None => x00
  end.

Definition incorrect_padding : PyExc :=
  mkExc binascii_Error "Incorrect padding".

Definition invalid_length (bin_len : nat) : PyExc :=
  mkExc binascii_Error
    ("Invalid base64-encoded string: number of data characters ("
     +:+ NilEmpty.string_of_uint (N.to_uint (N.of_nat bin_len / 3 * 4 + 1))
     +:+ ") cannot be 1 more than a multiple of 4").

(** The loop of [binascii.a2b_base64] with [strict_mode] off, which is
    how [base64.b64decode(s)] calls it.  [quad_pos], [leftchar] and
    [pads] are the C locals, [bin_data] the bytes written so far.  A
    pad that completes a quad stops the scan ([goto done]); a character
    outside the alphabet is passed over. *)
Fixpoint a2b_loop (ascii_data : string) (quad_pos leftchar pads : N)
    (bin_data : list byte) : Result (list byte) :=
  match ascii_data with
  | EmptyString =>
      if quad_pos =? 0 then Ok bin_data
      else if quad_pos =? 1 then Raise (invalid_length (length bin_data))
      else Raise incorrect_padding
  | String this_ch rest =>
      if Ascii.eqb this_ch BASE64_PAD then
        if 2 <=? quad_pos then
          if 4 <=? quad_pos + (pads + 1) then Ok bin_data
          else a2b_loop rest quad_pos leftchar (pads + 1) bin_data
        else a2b_loop rest quad_pos leftchar pads bin_data
      else
        match table_a2b_base64 this_ch with
        | None => a2b_loop rest quad_pos leftchar pads bin_data
        | Some v =>
            match quad_pos with
            | 0 => a2b_loop rest 1 v 0 bin_data
            | 1 =>
                a2b_loop rest 2 (N.land v 15) 0
                  (bin_data ++
                   [to_uchar (N.lor (N.shiftl leftchar 2) (N.shiftr v 4))])
            | 2 =>
                a2b_loop rest 3 (N.land v 3) 0
                  (bin_data ++
                   [to_uchar (N.lor (N.shiftl leftchar 4) (N.shiftr v 2))])
            | 3 =>
                a2b_loop rest 0 0 0
                  (bin_data ++ [to_uchar (N.lor (N.shiftl leftchar 6) v)])
            | _ => a2b_loop rest quad_pos leftchar 0 bin_data
            end
        end
  end.

Definition a2b_base64 (data : string) : Result (list byte) :=
  a2b_loop data 0 0 0 [].

Definition is_ascii (c : ascii) : bool := (N_of_ascii c <? 128).

Fixpoint all_ascii (s : string) : bool :=
  match s with
  | EmptyString => true
  | String c rest => is_ascii c && all_ascii rest
  end.

(** [base64.b64decode(s)] on a [str]: [s.encode('ascii')], which raises
    [ValueError] on a character that is not ASCII, then [a2b_base64]. *)
Definition b64decode_str (s : string) : Result (list byte) :=
  if all_ascii s then a2b_base64 s
  else Raise (mkExc ValueError
                "string argument should contain only ASCII characters").

(** [base64.b64encode]: the standard encoding of RFC 4648, three bytes
    to four characters, padded with [=]. *)
Fixpoint b64encode (bs : list byte) : string :=
  match bs with
  | [] => ""
  | [a] =>
      let a := Byte.to_N a in
      String (table_b2a_base64 (N.shiftr a 2))
        (String (table_b2a_base64 (N.shiftl (N.land a 3) 4))
           (String BASE64_PAD (String BASE64_PAD "")))
  | [a; b] =>
      let a := Byte.to_N a in
      let b := Byte.to_N b in
      String (table_b2a_base64 (N.shiftr a 2))
        (String (table_b2a_base64
                   (N.lor (N.shiftl (N.land a 3) 4) (N.shiftr b 4)))
           (String (table_b2a_base64 (N.shiftl (N.land b 15) 2))
              (String BASE64_PAD "")))
  | a :: b :: c :: rest =>
      let a := Byte.to_N a in
      let b := Byte.to_N b in
      let c := Byte.to_N c in
      String (table_b2a_base64 (N.shiftr a 2))
        (String (table_b2a_base64
                   (N.lor (N.shiftl (N.land a 3) 4) (N.shiftr b 4)))
           (String (table_b2a_base64
                      (N.lor (N.shiftl (N.land b 15) 2) (N.shiftr c 6)))
              (String (table_b2a_base64 (N.land c 63))
                 (b64encode rest))))
  end.

End Base64.

(** ** The data model: events, parts, tool responses, response items *)

(** The values found in a response item (decoded JSON scalars); [JNull]
    is Python's [None]. *)
Inductive JVal : Set :=
  | JNull
  | JBool (b : bool)
  | JNum (n : Z)
  | JStr (s : string).

Global Instance JVal_eq_dec : EqDecision JVal.
Proof. solve_decision. Defined.

(** Python's truth value of an object. *)
Definition truthy (v : JVal) : bool :=
  match v with
  | JNull => false
  | JBool b => b
  | JNum n => negb (n =? 0)%Z
  | JStr s => negb (String.eqb s "")
  end.

(** A response item is a [dict]. *)
Abbreviation Item := (gmap string JVal).

(** [d.get(k)]: the value at [k], [None] when the key is absent. *)
Definition dict_get (d : Item) (k : string) : JVal :=
  default JNull (d !! k).

(** [types.FunctionResponse]: [response] is an optional [dict]; the key
    the scan reads, ["content"], holds a list of items.  The embedding
    covers the responses whose ["content"], when present, is a list of
    mappings with scalar values; a ["content"] that is no list, or an item
    that is no mapping, makes the source raise at lines 91 and 92 and is
    outside this type. *)
Record FunctionResponse : Type :=
  { response : option (gmap string (list Item)) }.

(** [types.Part]: the two optional fields the script reads. *)
Record Part : Type :=
  { text : option string;
    function_response : option FunctionResponse }.

(** [types.Content] with its optional list of parts. *)
Record Content : Type := { parts : option (list Part) }.

(** An event of the run with its optional content. *)
Record Event : Type := { content : option Content }.

(** [event.content and event.content.parts]: the parts to visit, when the
    content is there and its list of parts is neither [None] nor empty. *)
Definition content_parts (event : Event) : option (list Part) :=
  match content event with
  | None => None
  | Some c =>
      match parts c with
      | None => None
      | Some [] => None
      | Some ps => Some ps
      end
  end.

(** ** The scan of [save_image_from_response] (lines 85 to 96) *)

(** [item.get("type") == "image" and item.get("data")]. *)
Definition is_image_item (item : Item) : bool :=
  bool_decide (dict_get item "type" = JStr "image")
  && truthy (dict_get item "data").

(** Lines 91 to 94: the loop over the items of one tool response; the
    result is the value of [image_data_b64] when the loop is left.  The
    [break] leaves this loop only.  [item["data"]] is read under the guard
    that found the key, so it is [item.get("data")]. *)
Fixpoint scan_items (response_content : list Item) (image_data_b64 : JVal)
    : JVal :=
  match response_content with
  | [] => image_data_b64
  | item :: rest =>
      if is_image_item item then dict_get item "data"
      else scan_items rest image_data_b64
  end.

Definition attribute_error_get : PyExc :=
  mkExc AttributeError "'NoneType' object has no attribute 'get'".

(** Lines 89 and 90 for one part: [part.function_response.response
    .get("content", [])] raises when [response] is [None]. *)
Definition part_content (part : Part) : Result (option (list Item)) :=
  match function_response part with
  | None => Ok None
  | Some fr =>
      match response fr with
      | None => Raise attribute_error_get
      | Some d => Ok (Some (default [] (d !! "content")))
      end
  end.

(** Lines 87 to 94: the loop over the parts of one event.  It has no
    [break]: every part is visited. *)
Fixpoint scan_parts (ps : list Part) (image_data_b64 : JVal) : Result JVal :=
  match ps with
  | [] => Ok image_data_b64
  | part :: rest =>
      c ← part_content part;
      match c with
      | None => scan_parts rest image_data_b64
      | Some response_content =>
          scan_parts rest (scan_items response_content image_data_b64)
      end
  end.

(** Lines 85 to 96: the loop over the events, left by the [break] of
    line 96 once [image_data_b64] is true after an event's parts. *)
Fixpoint scan_events (events : list Event) (image_data_b64 : JVal)
    : Result JVal :=
  match events with
  | [] => Ok image_data_b64
  | event :: rest =>
      match content_parts event with
      | None => scan_events rest image_data_b64
      | Some ps =>
          image_data_b64' ← scan_parts ps image_data_b64;
          if truthy image_data_b64' then Ok image_data_b64'
          else scan_events rest image_data_b64'
      end
  end.

(** ** The state of the process: files and standard output *)

Record World : Type :=
  { files : gmap string (list byte);
    unwritable : gset string;
    stdout : list string }.

(** Code that reads and writes the world and may raise. *)
Definition M (A : Type) : Type := World -> Result A * World.

Global Instance M_ret : MRet M := fun A a w => (Ok a, w).
Global Instance M_bind : MBind M := fun A B f m w =>
  match m w with
  | (Ok a, w') => f a w'
  | (Raise e, w') => (Raise e, w')
  end.

Definition lift {A} (r : Result A) : M A := fun w => (r, w).

Definition print (line : string) : M unit := fun w =>
  (Ok tt, {| files := files w; unwritable := unwritable w;
             stdout := stdout w ++ [line] |}).

Definition permission_error (path : string) : PyExc :=
  mkExc OSError ("[Errno 13] Permission denied: '" +:+ path +:+ "'").

(** The world once [data] has been written to the file at [path]. *)
Definition with_file (path : string) (data : list byte) (w : World) : World :=
  {| files := <[path := data]> (files w);
     unwritable := unwritable w; stdout := stdout w |}.

(** [Path(path).write_bytes(data)]: the file is created or overwritten;
    the write raises [OSError] on a path that cannot be written.  The
    failure covered is the refusal to open the file, which leaves it as it
    was; a write that fails once the file is open and truncated (a full
    disk) is outside the embedding, and no property below is drawn from
    the state of the output file after a failed write. *)
Definition write_bytes (path : string) (data : list byte) : M unit := fun w =>
  if bool_decide (path ∈ unwritable w) then (Raise (permission_error path), w)
  else (Ok tt, with_file path data w).

Definition type_name (v : JVal) : string :=
  match v with
  | JNull => "NoneType"
  | JBool _ => "bool"
  | JNum _ => "int"
  | JStr _ => "str"
  end.

(** [base64.b64decode(v)]: a [str] is decoded, any other value here is
    not bytes-like and raises [TypeError]. *)
Definition b64decode (v : JVal) : Result (list byte) :=
  match v with
  | JStr s => Base64.b64decode_str s
  | _ =>
      Raise (mkExc TypeError
               ("argument should be a bytes-like object or ASCII string, not '"
                +:+ type_name v +:+ "'"))
  end.

Definition not_found_status : string :=
  "No image data found in the agent's tool response.".

Definition saved_status (resolved : string) : string :=
  "Image successfully saved to: " +:+ resolved.

Definition default_output_filename : string := "tiny_image.png".

Section Script.

(** [Path.resolve]: the absolute path of a file name, which depends on
    the working directory of the process. *)
Variable resolve : string -> string.

(** Lines 78 to 108. *)
Definition save_image_from_response (events : list Event)
    (output_filename : string) : M string :=
  image_data_b64 ← lift (scan_events events JNull);
  if truthy image_data_b64 then
    image_bytes ← lift (b64decode image_data_b64);
    _ ← write_bytes output_filename image_bytes;
    mret (saved_status (resolve output_filename))
  else mret not_found_status.

(** Lines 128 to 133: the text loops of [main]. *)
Fixpoint text_parts (ps : list Part) (final_response_text : string)
    : string :=
  match ps with
  | [] => final_response_text
  | part :: rest =>
      match text part with
      | Some t =>
          if negb (String.eqb t "")
          then text_parts rest (final_response_text +:+ t)
          else text_parts rest final_response_text
      | None => text_parts rest final_response_text
      end
  end.

Fixpoint text_events (events : list Event) (final_response_text : string)
    : string :=
  match events with
  | [] => final_response_text
  | event :: rest =>
      match content_parts event with
      | None => text_events rest final_response_text
      | Some ps => text_events rest (text_parts ps final_response_text)
      end
  end.

Definition final_response_text (response_events : list Event) : string :=
  text_events response_events "".

(** [str.isspace] on one character, for the code points below 256. *)
Definition isspace (c : ascii) : bool :=
  let n := N_of_ascii c in
  ((9 <=? n) && (n <=? 13) || (28 <=? n) && (n <=? 32)
   || (n =? 133) || (n =? 160))%N.

Fixpoint lstrip (s : string) : string :=
  match s with
  | EmptyString => EmptyString
  | String c rest => if isspace c then lstrip rest else s
  end.

(** [str.strip()]: white space removed at both ends. *)
Definition strip (s : string) : string :=
  String.rev (lstrip (String.rev (lstrip s))).

Definition rule : string := String.concat "" (replicate 60 "=").

Definition query : string := "Provide a sample tiny image".

(** Lines 116 to 138.  [run_debug] is the outcome of the awaited call
    of the external runner: the list of events, or what it raised. *)
Definition main (run_debug : Result (list Event)) : M unit :=
  _ ← print (String "010" "User > " +:+ query);
  _ ← print rule;
  response_events ← lift run_debug;
  image_status ← save_image_from_response response_events
                    default_output_filename;
  let text := final_response_text response_events in
  _ ← print rule;
  _ ← print ("Agent Final Text Response: " +:+ strip text);
  _ ← print ("Image Saving Status: " +:+ image_status);
  print rule.

(** [asyncio.run(main())]: [main], then the shutdown of the loop and of
    the tool's transport, which may raise on its own ([shutdown]). *)
Definition asyncio_run_main (run_debug : Result (list Event))
    (shutdown : option PyExc) : M unit :=
  _ ← main run_debug;
  match shutdown with
  | Some e => lift (Raise e)
  | None => mret tt
  end.

(** How the process ends: the script ran to its end, or an exception
    left it uncaught. *)
Inductive Exit : Set :=
  | Completed
  | Uncaught (e : PyExc).

(** The lines printed by the two handlers (the source starts the first
    two with a pictograph, left out here). *)
Definition cleanup_lines : list string :=
  [ String "010" " Script completed and image saved successfully.";
    " Non-fatal cleanup error caught during MCP stdio shutdown. This can be safely ignored." ].

Definition fatal_line (e : PyExc) : string :=
  "An unexpected fatal error occurred: " +:+ exc_str e.

Definition print_all (lines : list string) (w : World) : World :=
  {| files := files w; unwritable := unwritable w;
     stdout := stdout w ++ lines |}.

(** Lines 141 to 152: the [try] statement around the outcome of
    [asyncio.run(main())]. *)
Definition handle (outcome : Result unit * World) : Exit * World :=
  match outcome with
  | (Ok _, w) => (Completed, w)
  | (Raise e, w) =>
      if isinstance e BaseExceptionGroup
      then (Completed, print_all cleanup_lines w)
      else if isinstance e Exception
      then (Completed, print_all [fatal_line e] w)
      else (Uncaught e, w)
  end.

Definition script (run_debug : Result (list Event))
    (shutdown : option PyExc) (w : World) : Exit * World :=
  handle (asyncio_run_main run_debug shutdown w).

End Script.

(** ** Running the model on small inputs *)

Definition text_part (t : string) : Part :=
  {| text := Some t; function_response := None |}.

Definition tool_part (response_content : list Item) : Part :=
  {| text := None;
     function_response :=
       Some {| response := Some {[ "content" := response_content ]} |} |}.

Definition image_item (data : string) : Item :=
  {[ "type" := JStr "image"; "data" := JStr data ]}.

Definition text_item : Item := {[ "type" := JStr "text" ]}.

Definition event_of (ps : list Part) : Event :=
  {| content := Some {| parts := Some ps |} |}.

Definition empty_world : World :=
  {| files := ∅; unwritable := ∅; stdout := [] |}.

Definition resolve_in (cwd : string) (name : string) : string :=
  cwd +:+ "/" +:+ name.

(** The three events of the end-to-end scenario. *)
Definition scenario : list Event :=
  [ {| content := None |};
    event_of [text_part "Here is "; tool_part [text_item]];
    event_of [text_part "your image.";
              tool_part [image_item (Base64.b64encode [x41; x42; x43])]] ].

(** One event whose two tool responses each hold an image item. *)
Definition two_images : list Event :=
  [ event_of [tool_part [image_item "QUJD"]; tool_part [image_item "REVG"]] ].

(** ** The items of a sequence of events, in scan order *)

(** The items of the tool response of a part, none when the part carries
    no tool response or its response has no ["content"]. *)
Definition part_items (part : Part) : list Item :=
  match function_response part with
  | Some {| response := Some d |} => default [] (d !! "content")
  | _ => []
  end.

Definition event_parts (event : Event) : list Part :=
  default [] (content_parts event).

Definition event_items (event : Event) : list Item :=
  flat_map part_items (event_parts event).

(** Event order, then part order, then item order. *)
Definition all_items (events : list Event) : list Item :=
  flat_map event_items events.

(** A tool response carries its [response] mapping. *)
Definition response_present (part : Part) : bool :=
  match function_response part with
  | Some {| response := None |} => false
  | _ => true
  end.

Definition responses_present (events : list Event) : bool :=
  forallb (fun event => forallb response_present (event_parts event)) events.

Definition no_image (items : list Item) : bool :=
  forallb (fun item => negb (is_image_item item)) items.

(** The data of the first image item in event, part and item order, as
    the specification words the result of the scan; [JNull] when there is
    none. *)
Definition first_image (events : list Event) : JVal :=
  match List.find is_image_item (all_items events) with
  | Some item => dict_get item "data"
  | None => JNull
  end.

(** A part the scan has nothing to read from: no tool response, or a
    tool response whose mapping has no ["content"] key. *)
Definition without_content (part : Part) : bool :=
  match function_response part with
  | None => true
  | Some {| response := Some d |} => bool_decide (d !! "content" = None)
  | Some {| response := None |} => false
  end.

(** The classes that derive from [BaseException] without deriving from
    [Exception] or from [BaseExceptionGroup]. *)
Definition outside_Exception : list ExcType :=
  [BaseException; KeyboardInterrupt; SystemExit; GeneratorExit; CancelledError].

(** A world in which the output file already exists. *)
Definition world_with_old_file : World :=
  {| files := {[ default_output_filename := [x6f; x6c; x64] ]};
     unwritable := ∅; stdout := [] |}.

(** The text of the specification's [extractText]: the non-empty text
    fields, in event order then part order, put end to end. *)
Definition event_texts (event : Event) : list string :=
  List.filter (fun t => negb (String.eqb t "")) (omap text (event_parts event)).

Definition extractText (events : list Event) : string :=
  fold_right String.append "" (flat_map event_texts events).

(** The number of characters of the base64 alphabet in a string, and
    whether it holds the pad character. *)
Fixpoint data_chars (s : string) : N :=
  match s with
  | EmptyString => 0
  | String c rest =>
      match Base64.table_a2b_base64 c with
      | Some _ => 1 + data_chars rest
      | None => data_chars rest
      end
  end%N.

Fixpoint has_pad (s : string) : bool :=
  match s with
  | EmptyString => false
  | String c rest => Ascii.eqb c Base64.BASE64_PAD || has_pad rest
  end.

(** A string is valid base64 when it is the encoding of some bytes. *)
Definition valid_base64 (s : string) : Prop :=
  exists bs : list byte, s = Base64.b64encode bs.

(** ** Shapes of events used to state further properties of the scan *)

(** A part whose tool response holds an image item. *)
Definition has_image (part : Part) : bool :=
  negb (no_image (part_items part)).

(** At most one part of the event holds an image item. *)
Definition single_image_part (event : Event) : bool :=
  (length (List.filter has_image (event_parts event)) <=? 1)%nat.

(** The same parts, seen through a change made to each of them. *)
Definition map_parts (f : Part -> Part) (event : Event) : Event :=
  {| content :=
       match content event with
       | None => None
       | Some c =>
           Some {| parts := match parts c with
                            | None => None
                            | Some ps => Some (List.map f ps)
                            end |}
       end |}.

Definition without_text (part : Part) : Part :=
  {| text := None; function_response := function_response part |}.

Definition without_function_response (part : Part) : Part :=
  {| text := text part; function_response := None |}.

(** The characters the decoder reads: those of the alphabet and the pad. *)
Definition significant (c : ascii) : bool :=
  Ascii.eqb c Base64.BASE64_PAD
  || match Base64.table_a2b_base64 c with Some _ => true | None => false end.

Fixpoint keep_significant (s : string) : string :=
  match s with
  | EmptyString => EmptyString
  | String c rest =>
      if significant c then String c (keep_significant rest)
      else keep_significant rest
  end.

(** The classes of the exceptions [save_image_from_response] can raise. *)
Definition save_errors : list ExcType :=
  [AttributeError; TypeError; ValueError; binascii_Error; OSError].

(** The two lines [main] prints before the run. *)
Definition opening_lines : list string :=
  [String "010" "User > " +:+ query; rule].

(** A string that starts with white space, in the sense of [str.strip]. *)
Definition starts_with_space (s : string) : bool :=
  match s with
  | EmptyString => false
  | String c _ => isspace c
  end.

(** ** Exhaustive checks on bytes and sextets *)

Module Sextets.
Import Base64.
Local Open Scope N_scope.

(** Checking a boolean property on every number below a bound. *)
Fixpoint below (n : nat) (P : N -> bool) : bool :=
  match n with
  | O => true
  | S k => P (N.of_nat k) && below k P
  end.

(** The four sextets of a group of three bytes, as [b64encode] forms
    them. *)
Definition s1 (a : N) : N := N.shiftr a 2.
Definition s2 (a b : N) : N := N.lor (N.shiftl (N.land a 3) 4) (N.shiftr b 4).
Definition s3 (b c : N) : N := N.lor (N.shiftl (N.land b 15) 2) (N.shiftr c 6).
Definition s4 (c : N) : N := N.land c 63.

(** A sextet and its character. *)
Definition sextet_ok (n : N) : bool :=
  negb (Ascii.eqb (table_b2a_base64 n) BASE64_PAD)
  && bool_decide (table_a2b_base64 (table_b2a_base64 n) = Some n)
  && is_ascii (table_b2a_base64 n).

Definition sextets_small (a b : N) : bool :=
  (s1 a <? 64) && (s2 a b <? 64) && (s3 a b <? 64) && (s4 a <? 64)
  && (N.shiftl (N.land a 3) 4 <? 64) && (N.shiftl (N.land a 15) 2 <? 64).

(** What the decoder rebuilds from the sextets of a group. *)
Definition regroup_ab (a b : N) : bool :=
  (N.lor (N.shiftl (s1 a) 2) (N.shiftr (s2 a b) 4) =? a)
  && (N.land (s2 a b) 15 =? N.shiftr b 4)
  && (N.lor (N.shiftl (s1 a) 2)
        (N.shiftr (N.shiftl (N.land a 3) 4) 4) =? a).

Definition regroup_bc (b c : N) : bool :=
  (N.lor (N.shiftl (N.shiftr b 4) 4) (N.shiftr (s3 b c) 2) =? b)
  && (N.land (s3 b c) 3 =? N.shiftr c 6)
  && (N.lor (N.shiftl (N.shiftr c 6) 6) (s4 c) =? c)
  && (N.lor (N.shiftl (N.shiftr b 4) 4)
        (N.shiftr (N.shiftl (N.land b 15) 2) 2) =? b).

End Sextets.

(** * Properties *)

(** ** The base64 codec *)

Module Base64Facts.
Import Base64 Sextets.
Local Open Scope N_scope.

Lemma below_spec (n : nat) (P : N -> bool) :
  below n P = true -> forall k, k < N.of_nat n -> P k = true.
Proof.
  induction n as [|n IH]; intros Hb k Hk; [lia|].
  simpl in Hb. apply andb_true_iff in Hb as [Hn Hrest].
  destruct (N.eq_dec k (N.of_nat n)) as [->|Hne]; [exact Hn|].
  apply IH; [exact Hrest | lia].
Qed.

Lemma below2_spec (n m : nat) (P : N -> N -> bool) :
  below n (fun a => below m (P a)) = true ->
  forall a b, a < N.of_nat n -> b < N.of_nat m -> P a b = true.
Proof.
  intros Hb a b Ha Hb'.
  apply (below_spec m (P a)); [|exact Hb'].
  apply (below_spec n (fun a => below m (P a))); assumption.
Qed.

Lemma to_N_lt (b : byte) : Byte.to_N b < N.of_nat 256.
Proof. pose proof (Byte.to_N_bounded b). lia. Qed.

Lemma to_uchar_to_N (b : byte) : to_uchar (Byte.to_N b) = b.
Proof.
  unfold to_uchar. rewrite N.mod_small by (pose proof (to_N_lt b); lia).
  now rewrite Byte.of_to_N.
Qed.

Lemma sextet_ok_all (n : N) : n < 64 -> sextet_ok n = true.
Proof. apply (below_spec 64 sextet_ok). vm_compute. reflexivity. Qed.

Lemma sextet_lt (a b : N) :
  a < 256 -> b < 256 ->
  s1 a < 64 /\ s2 a b < 64 /\ s3 a b < 64 /\ s4 a < 64
  /\ N.shiftl (N.land a 3) 4 < 64 /\ N.shiftl (N.land a 15) 2 < 64.
Proof.
  intros Ha Hb.
  assert (H : sextets_small a b = true).
  { apply (below2_spec 256 256 sextets_small);
      [vm_compute; reflexivity | lia | lia]. }
  unfold sextets_small in H.
  repeat (apply andb_true_iff in H as [H ?]).
  repeat match goal with
         | X : (_ <? _) = true |- _ => apply N.ltb_lt in X
         end.
  auto 10.
Qed.

Lemma regroup_ab_all (a b : N) : a < 256 -> b < 256 -> regroup_ab a b = true.
Proof.
  intros Ha Hb. apply (below2_spec 256 256 regroup_ab);
    [vm_compute; reflexivity | lia | lia].
Qed.

Lemma regroup_bc_all (b c : N) : b < 256 -> c < 256 -> regroup_bc b c = true.
Proof.
  intros Hb Hc. apply (below2_spec 256 256 regroup_bc);
    [vm_compute; reflexivity | lia | lia].
Qed.

(** One step of the decoder on the character of a sextet. *)
Lemma a2b_loop_data (n : N) (rest : string) (quad_pos leftchar pads : N)
    (out : list byte) :
  n < 64 ->
  a2b_loop (String (table_b2a_base64 n) rest) quad_pos leftchar pads out =
  match quad_pos with
  | 0 => a2b_loop rest 1 n 0 out
  | 1 =>
      a2b_loop rest 2 (N.land n 15) 0
        (out ++ [to_uchar (N.lor (N.shiftl leftchar 2) (N.shiftr n 4))])
  | 2 =>
      a2b_loop rest 3 (N.land n 3) 0
        (out ++ [to_uchar (N.lor (N.shiftl leftchar 4) (N.shiftr n 2))])
  | 3 =>
      a2b_loop rest 0 0 0
        (out ++ [to_uchar (N.lor (N.shiftl leftchar 6) n)])
  | _ => a2b_loop rest quad_pos leftchar 0 out
  end.
Proof.
  intros Hn. pose proof (sextet_ok_all n Hn) as Hok. unfold sextet_ok in Hok.
  apply andb_true_iff in Hok as [Hok _].
  apply andb_true_iff in Hok as [Hpad Htab].
  apply negb_true_iff in Hpad. apply bool_decide_eq_true in Htab.
  cbn [a2b_loop]. rewrite Hpad, Htab. reflexivity.
Qed.

Lemma list_ind3 {A : Type} (P : list A -> Prop) :
  P [] -> (forall a, P [a]) -> (forall a b, P [a; b]) ->
  (forall a b c l, P l -> P (a :: b :: c :: l)) ->
  forall l, P l.
Proof.
  intros H0 H1 H2 H3 l.
  assert (H : P l /\ (forall a, P (a :: l)) /\ (forall a b, P (a :: b :: l))).
  { induction l as [|x l (IH0 & IH1 & IH2)]; [auto|].
    split; [apply IH1|]. split; [intros a; apply IH2|].
    intros a b. now apply H3. }
  apply H.
Qed.

(** Decoding what [b64encode] produced gives the bytes back, after the
    bytes already written. *)
Lemma a2b_loop_b64encode (bs out : list byte) :
  a2b_loop (b64encode bs) 0 0 0 out = Ok (out ++ bs)%list.
Proof.
  revert out. induction bs as [|a|a b|a b c l IH] using list_ind3; intros out.
  - cbn. now rewrite app_nil_r.
  - pose proof (to_N_lt a) as Ha.
    destruct (sextet_lt (Byte.to_N a) (Byte.to_N a)) as (L1 & _ & _ & _ & L5 & _);
      [lia | lia |].
    pose proof (regroup_ab_all (Byte.to_N a) (Byte.to_N a)) as R.
    unfold regroup_ab in R. rewrite !andb_true_iff, !N.eqb_eq in R.
    destruct R as [[_ _] R3]; [lia | lia |].
    cbn [b64encode]. rewrite (a2b_loop_data _ _ 0) by exact L1.
    rewrite (a2b_loop_data _ _ 1) by exact L5.
    fold (s1 (Byte.to_N a)). rewrite R3, to_uchar_to_N. reflexivity.
  - pose proof (to_N_lt a) as Ha. pose proof (to_N_lt b) as Hb.
    destruct (sextet_lt (Byte.to_N a) (Byte.to_N b)) as (L1 & L2 & _); [lia | lia |].
    destruct (sextet_lt (Byte.to_N b) (Byte.to_N b)) as (_ & _ & _ & _ & _ & L6);
      [lia | lia |].
    pose proof (regroup_ab_all (Byte.to_N a) (Byte.to_N b)) as R.
    unfold regroup_ab in R. rewrite !andb_true_iff, !N.eqb_eq in R.
    destruct R as [[R1 R2] _]; [lia | lia |].
    pose proof (regroup_bc_all (Byte.to_N b) (Byte.to_N b)) as Q.
    unfold regroup_bc in Q. rewrite !andb_true_iff, !N.eqb_eq in Q.
    destruct Q as [_ Q4]; [lia | lia |].
    cbn [b64encode]. rewrite (a2b_loop_data _ _ 0) by exact L1.
    fold (s2 (Byte.to_N a) (Byte.to_N b)).
    rewrite (a2b_loop_data _ _ 1) by exact L2.
    rewrite (a2b_loop_data _ _ 2) by exact L6.
    fold (s1 (Byte.to_N a)). rewrite R1, R2, Q4, !to_uchar_to_N.
    cbn. now rewrite <- app_assoc.
  - pose proof (to_N_lt a) as Ha. pose proof (to_N_lt b) as Hb.
    pose proof (to_N_lt c) as Hc.
    destruct (sextet_lt (Byte.to_N a) (Byte.to_N b)) as (L1 & L2 & _); [lia | lia |].
    destruct (sextet_lt (Byte.to_N b) (Byte.to_N c)) as (_ & _ & L3 & _); [lia | lia |].
    destruct (sextet_lt (Byte.to_N c) (Byte.to_N c)) as (_ & _ & _ & L4 & _); [lia | lia |].
    pose proof (regroup_ab_all (Byte.to_N a) (Byte.to_N b)) as R.
    unfold regroup_ab in R. rewrite !andb_true_iff, !N.eqb_eq in R.
    destruct R as [[R1 R2] _]; [lia | lia |].
    pose proof (regroup_bc_all (Byte.to_N b) (Byte.to_N c)) as Q.
    unfold regroup_bc in Q. rewrite !andb_true_iff, !N.eqb_eq in Q.
    destruct Q as [[[Q1 Q2] Q3] _]; [lia | lia |].
    cbn [b64encode]. rewrite (a2b_loop_data _ _ 0) by exact L1.
    fold (s2 (Byte.to_N a) (Byte.to_N b)).
    rewrite (a2b_loop_data _ _ 1) by exact L2.
    fold (s3 (Byte.to_N b) (Byte.to_N c)).
    rewrite (a2b_loop_data _ _ 2) by exact L3.
    fold (s4 (Byte.to_N c)).
    rewrite (a2b_loop_data _ _ 3) by exact L4.
    fold (s1 (Byte.to_N a)). rewrite R1, R2, Q1, Q2, Q3, !to_uchar_to_N.
    rewrite IH. f_equal. now rewrite <- !app_assoc.
Qed.

Lemma all_ascii_b64encode (bs : list byte) : all_ascii (b64encode bs) = true.
Proof.
  assert (Hch : forall n, n < 64 -> is_ascii (table_b2a_base64 n) = true).
  { intros n Hn. pose proof (sextet_ok_all n Hn) as Hok. unfold sextet_ok in Hok.
    now apply andb_true_iff in Hok as [_ Hok]. }
  induction bs as [|a|a b|a b c l IH] using list_ind3.
  - reflexivity.
  - pose proof (to_N_lt a) as Ha.
    destruct (sextet_lt (Byte.to_N a) (Byte.to_N a)) as (L1 & _ & _ & _ & L5 & _);
      [lia | lia |].
    cbn [b64encode all_ascii]. rewrite !Hch by assumption. reflexivity.
  - pose proof (to_N_lt a) as Ha. pose proof (to_N_lt b) as Hb.
    destruct (sextet_lt (Byte.to_N a) (Byte.to_N b)) as (L1 & L2 & _); [lia | lia |].
    destruct (sextet_lt (Byte.to_N b) (Byte.to_N b)) as (_ & _ & _ & _ & _ & L6);
      [lia | lia |].
    cbn [b64encode all_ascii]. rewrite !Hch by assumption. reflexivity.
  - pose proof (to_N_lt a) as Ha. pose proof (to_N_lt b) as Hb.
    pose proof (to_N_lt c) as Hc.
    destruct (sextet_lt (Byte.to_N a) (Byte.to_N b)) as (L1 & L2 & _); [lia | lia |].
    destruct (sextet_lt (Byte.to_N b) (Byte.to_N c)) as (_ & _ & L3 & _); [lia | lia |].
    destruct (sextet_lt (Byte.to_N c) (Byte.to_N c)) as (_ & _ & _ & L4 & _); [lia | lia |].
    cbn [b64encode all_ascii]. rewrite !Hch by assumption. exact IH.
Qed.

(** [base64.b64decode(base64.b64encode(x)) == x]. *)
Lemma b64decode_b64encode (bs : list byte) :
  b64decode_str (b64encode bs) = Ok bs.
Proof.
  unfold b64decode_str, a2b_base64.
  rewrite all_ascii_b64encode. apply (a2b_loop_b64encode bs []).
Qed.

(** An encoding is empty only for the empty byte string, and its length
    is a multiple of four. *)
Lemma b64encode_nonempty (bs : list byte) :
  bs <> [] -> b64encode bs <> EmptyString.
Proof. destruct bs as [|a [|b [|c l]]]; [congruence | discriminate ..]. Qed.

Lemma b64encode_length (bs : list byte) :
  (String.length (b64encode bs) mod 4 = 0)%nat.
Proof.
  induction bs as [|a|a b|a b c l IH] using list_ind3; try reflexivity.
  cbn [b64encode String.length].
  change (S (S (S (S ?n)))) with (4 + n)%nat.
  replace (4 + String.length (b64encode l))%nat
    with (String.length (b64encode l) + 1 * 4)%nat by lia.
  now rewrite Nat.Div0.mod_add.
Qed.

(** Without a pad character, the decoder raises [binascii.Error] exactly
    when the characters of the alphabet do not fill whole quads. *)
Lemma a2b_loop_incomplete (s : string) (quad_pos leftchar pads : N)
    (out : list byte) :
  has_pad s = false ->
  quad_pos < 4 ->
  (quad_pos + data_chars s) mod 4 <> 0 ->
  exists e, a2b_loop s quad_pos leftchar pads out = Raise e
            /\ exc_type e = binascii_Error.
Proof.
  revert quad_pos leftchar pads out.
  induction s as [|c rest IH]; intros quad_pos leftchar pads out Hpad Hq Hn.
  - cbn [data_chars] in Hn. rewrite N.add_0_r, N.mod_small in Hn by exact Hq.
    cbn [a2b_loop]. destruct (quad_pos =? 0) eqn:E0; [apply N.eqb_eq in E0; lia|].
    destruct (quad_pos =? 1); eexists; split; reflexivity.
  - cbn [has_pad] in Hpad. apply orb_false_iff in Hpad as [Hc Hrest].
    cbn [a2b_loop data_chars] in *. rewrite Hc.
    destruct (table_a2b_base64 c) as [v|]; [|now apply IH].
    assert (Hcase : quad_pos = 0 \/ quad_pos = 1 \/ quad_pos = 2 \/ quad_pos = 3)
      by lia.
    destruct Hcase as [-> | [-> | [-> | ->]]]; apply IH; try exact Hrest; try lia.
    + now replace (1 + data_chars rest) with (0 + (1 + data_chars rest)).
    + now replace (2 + data_chars rest) with (1 + (1 + data_chars rest)) by lia.
    + now replace (3 + data_chars rest) with (2 + (1 + data_chars rest)) by lia.
    + replace (3 + (1 + data_chars rest)) with (0 + data_chars rest + 1 * 4)
        in Hn by lia.
      now rewrite N.Div0.mod_add in Hn.
Qed.

Lemma b64decode_str_incomplete (s : string) :
  all_ascii s = true ->
  has_pad s = false ->
  data_chars s mod 4 <> 0 ->
  exists e, b64decode_str s = Raise e /\ exc_type e = binascii_Error.
Proof.
  intros Ha Hp Hn. unfold b64decode_str, a2b_base64. rewrite Ha.
  apply a2b_loop_incomplete; [exact Hp | lia | exact Hn].
Qed.

End Base64Facts.

(** The decoder on small inputs: stray characters are passed over, a
    quad left incomplete is an error. *)
Example b64encode_ABC : Base64.b64encode [x41; x42; x43] = "QUJD".
Proof. reflexivity. Qed.

Example b64decode_ABC : Base64.b64decode_str "QUJD" = Ok [x41; x42; x43].
Proof. reflexivity. Qed.

Example b64decode_after_pad : Base64.b64decode_str "QQ==QUJD" = Ok [x41].
Proof. reflexivity. Qed.

Example b64decode_one_left :
  Base64.b64decode_str "QUJDR" = Raise (Base64.invalid_length 3).
Proof. reflexivity. Qed.

Example b64decode_not_ascii :
  exc_type
    (match Base64.b64decode_str (String (ascii_of_N 233) "QUJD") with
     | Ok _ => Base64.incorrect_padding
     | Raise e => e
     end) = ValueError.
Proof. reflexivity. Qed.

(** ** The scan *)

Lemma scan_items_nil (v : JVal) : scan_items [] v = v.
Proof. reflexivity. Qed.

(** The loop over items stops at the first image item. *)
Lemma scan_items_find (items : list Item) (v : JVal) :
  scan_items items v =
  match List.find is_image_item items with
  | Some item => dict_get item "data"
  | None => v
  end.
Proof.
  induction items as [|item rest IH]; [reflexivity|].
  cbn [scan_items List.find]. destruct (is_image_item item); [reflexivity | exact IH].
Qed.

Lemma scan_items_no_image (items : list Item) (v : JVal) :
  no_image items = true -> scan_items items v = v.
Proof.
  induction items as [|item rest IH]; [reflexivity|].
  cbn [no_image forallb scan_items]. intros H.
  apply andb_true_iff in H as [Hitem Hrest]. apply negb_true_iff in Hitem.
  rewrite Hitem. exact (IH Hrest).
Qed.

Lemma scan_items_cases (items : list Item) (v : JVal) :
  scan_items items v = v \/
  exists item, In item items /\ is_image_item item = true
               /\ scan_items items v = dict_get item "data".
Proof.
  induction items as [|item rest IH]; [now left|].
  cbn [scan_items]. destruct (is_image_item item) eqn:E.
  - right. exists item. split; [now left | auto].
  - destruct IH as [IH|(it & Hin & Him & Heq)]; [now left|].
    right. exists it. split; [now right | auto].
Qed.

Lemma part_content_items (part : Part) (c : option (list Item)) :
  part_content part = Ok c -> default [] c = part_items part.
Proof.
  unfold part_content, part_items.
  destruct (function_response part) as [[[d|]]|]; intros H;
    inversion H; reflexivity.
Qed.

Lemma part_content_present (part : Part) :
  response_present part = true -> exists c, part_content part = Ok c.
Proof.
  unfold part_content, response_present.
  destruct (function_response part) as [[[d|]]|]; intros H;
    [eauto | discriminate | eauto].
Qed.

(** One round of the loop over parts. *)
Lemma scan_parts_cons (part : Part) (rest : list Part) (v : JVal) :
  scan_parts (part :: rest) v =
  match part_content part with
  | Ok _ => scan_parts rest (scan_items (part_items part) v)
  | Raise e => Raise e
  end.
Proof.
  cbn [scan_parts]. destruct (part_content part) as [c|e] eqn:E; [|reflexivity].
  apply part_content_items in E. rewrite <- E.
  destruct c as [items|]; reflexivity.
Qed.

Lemma scan_parts_cases (ps : list Part) (v v' : JVal) :
  scan_parts ps v = Ok v' ->
  v' = v \/
  exists item, In item (flat_map part_items ps) /\ is_image_item item = true
               /\ v' = dict_get item "data".
Proof.
  revert v. induction ps as [|part rest IH]; intros v H.
  - cbn in H. inversion H. now left.
  - rewrite scan_parts_cons in H.
    destruct (part_content part) as [c|e]; [|discriminate].
    cbn [flat_map].
    destruct (IH _ H) as [->|(it & Hin & Him & Heq)].
    + destruct (scan_items_cases (part_items part) v)
        as [Hv|(it & Hin & Him & Heq)]; [now left|].
      right. exists it. rewrite in_app_iff. auto.
    + right. exists it. rewrite in_app_iff. auto.
Qed.

Lemma scan_parts_no_image (ps : list Part) (v : JVal) :
  forallb response_present ps = true ->
  no_image (flat_map part_items ps) = true ->
  scan_parts ps v = Ok v.
Proof.
  induction ps as [|part rest IH]; [reflexivity|].
  cbn [forallb flat_map]. unfold no_image. rewrite forallb_app.
  intros Hp Hn. apply andb_true_iff in Hp as [Hp Hps].
  apply andb_true_iff in Hn as [Hn Hns].
  rewrite scan_parts_cons.
  destruct (part_content_present part Hp) as [c ->].
  rewrite (scan_items_no_image _ _ Hn). now apply IH.
Qed.

(** What the loop over parts computes when every response mapping is
    there: each part in turn overwrites the variable with its first image
    item, so the last part holding one decides. *)
Lemma scan_parts_fold (ps : list Part) (v : JVal) :
  forallb response_present ps = true ->
  scan_parts ps v =
  Ok (fold_left (fun acc part => scan_items (part_items part) acc) ps v).
Proof.
  revert v. induction ps as [|part rest IH]; intros v; [reflexivity|].
  cbn [forallb fold_left]. intros H. apply andb_true_iff in H as [Hp Hrest].
  rewrite scan_parts_cons. destruct (part_content_present part Hp) as [c ->].
  now apply IH.
Qed.

(** One round of the loop over events. *)
Lemma scan_events_cons (event : Event) (rest : list Event) :
  scan_events (event :: rest) JNull =
  match scan_parts (event_parts event) JNull with
  | Ok v => if truthy v then Ok v else scan_events rest v
  | Raise e => Raise e
  end.
Proof.
  cbn [scan_events]. unfold event_parts.
  destruct (content_parts event) as [ps|]; [|reflexivity].
  change (default [] (Some ps)) with ps.
  destruct (scan_parts ps JNull); reflexivity.
Qed.

Lemma truthy_false_image (item : Item) :
  is_image_item item = true -> truthy (dict_get item "data") = true.
Proof. unfold is_image_item. intros H. now apply andb_true_iff in H. Qed.

Lemma scan_events_cases (events : list Event) (v : JVal) :
  scan_events events JNull = Ok v ->
  v = JNull \/
  exists item, In item (all_items events) /\ is_image_item item = true
               /\ v = dict_get item "data".
Proof.
  induction events as [|event rest IH]; intros H.
  - cbn in H. inversion H. now left.
  - rewrite scan_events_cons in H. unfold all_items. cbn [flat_map].
    destruct (scan_parts (event_parts event) JNull) as [v0|e] eqn:E; [|discriminate].
    apply scan_parts_cases in E.
    destruct E as [->|(it & Hin & Him & Heq)].
    + cbn [truthy] in H. destruct (IH H) as [->|(it & Hin & Him & Heq)]; [now left|].
      right. exists it. rewrite in_app_iff. auto.
    + subst v0. rewrite (truthy_false_image it Him) in H. inversion H.
      right. exists it. rewrite in_app_iff. auto.
Qed.

Lemma scan_events_no_image (events : list Event) :
  responses_present events = true ->
  no_image (all_items events) = true ->
  scan_events events JNull = Ok JNull.
Proof.
  induction events as [|event rest IH]; [reflexivity|].
  unfold all_items. cbn [responses_present forallb flat_map].
  unfold no_image. rewrite forallb_app.
  intros Hp Hn. apply andb_true_iff in Hp as [Hp Hps].
  apply andb_true_iff in Hn as [Hn Hns].
  rewrite scan_events_cons.
  rewrite (scan_parts_no_image _ _ Hp Hn). cbn [truthy]. now apply IH.
Qed.

(** ** [save_image_from_response] *)

(** The function, case by case: what the scan selected, whether it
    decodes, whether the file can be written. *)
Lemma save_image_from_response_cases (resolve : string -> string)
    (events : list Event) (path : string) (w : World) :
  save_image_from_response resolve events path w =
  match scan_events events JNull with
  | Raise e => (Raise e, w)
  | Ok v =>
      if truthy v then
        match b64decode v with
        | Raise e => (Raise e, w)
        | Ok image_bytes =>
            if bool_decide (path ∈ unwritable w)
            then (Raise (permission_error path), w)
            else (Ok (saved_status (resolve path)), with_file path image_bytes w)
        end
      else (Ok not_found_status, w)
  end.
Proof.
  unfold save_image_from_response, mbind, M_bind, lift.
  destruct (scan_events events JNull) as [v|e]; [|reflexivity].
  destruct (truthy v); [|reflexivity].
  destruct (b64decode v) as [bs|e]; [|reflexivity].
  unfold write_bytes. destruct (bool_decide (path ∈ unwritable w)); reflexivity.
Qed.

Lemma dict_get_image_item_type (data : string) :
  dict_get (image_item data) "type" = JStr "image".
Proof. unfold dict_get, image_item. now rewrite lookup_insert_eq. Qed.

Lemma dict_get_image_item_data (data : string) :
  dict_get (image_item data) "data" = JStr data.
Proof.
  unfold dict_get, image_item.
  rewrite lookup_insert_ne by discriminate. now rewrite lookup_singleton_eq.
Qed.

Lemma is_image_item_image_item (data : string) :
  is_image_item (image_item data) = negb (String.eqb data "").
Proof.
  unfold is_image_item.
  rewrite dict_get_image_item_type, dict_get_image_item_data.
  now rewrite bool_decide_eq_true_2.
Qed.

Lemma part_items_tool_part (items : list Item) :
  part_items (tool_part items) = items.
Proof.
  unfold part_items, tool_part. cbn [function_response].
  now rewrite lookup_singleton_eq.
Qed.

Lemma part_content_tool_part (items : list Item) :
  part_content (tool_part items) = Ok (Some items).
Proof.
  unfold part_content, tool_part. cbn [function_response response].
  now rewrite lookup_singleton_eq.
Qed.

(** The scan of one event holding one tool response with one image item. *)
Lemma scan_events_single (data : string) :
  scan_events [event_of [tool_part [image_item data]]] JNull =
  Ok (if String.eqb data "" then JNull else JStr data).
Proof.
  rewrite scan_events_cons.
  change (event_parts (event_of [tool_part [image_item data]]))
    with [tool_part [image_item data]].
  rewrite scan_parts_cons, part_content_tool_part, part_items_tool_part.
  cbn [scan_parts scan_items].
  rewrite is_image_item_image_item, dict_get_image_item_data.
  destruct (String.eqb data "") eqn:E; cbn [negb truthy scan_events];
    [reflexivity|].
  now rewrite E.
Qed.

Lemma empty_world_writable (path : string) : path ∉ unwritable empty_world.
Proof. apply not_elem_of_empty. Qed.

Lemma saved_status_not_not_found (resolved : string) :
  saved_status resolved <> not_found_status.
Proof. discriminate. Qed.

(** ** The claims *)

(** C1, on the code as written: the loop over the parts of an event has no
    [break], so a later part of the same event that holds an image item
    replaces the item found first.  On [two_images] the first image item
    in event, part and item order has data ["QUJD"] (the bytes [ABC]), yet
    the scan selects ["REVG"] and the file receives the bytes [DEF]. *)
Theorem C1_later_part_replaces_first_image :
  first_image two_images = JStr "QUJD"
  /\ scan_events two_images JNull = Ok (JStr "REVG")
  /\ save_image_from_response (resolve_in "/work") two_images
       default_output_filename empty_world
     = (Ok (saved_status "/work/tiny_image.png"),
        with_file default_output_filename [x44; x45; x46] empty_world).
Proof. repeat split; vm_compute; reflexivity. Qed.

Lemma not_valid_base64_length (s : string) :
  String.length s mod 4 <> 0 -> ~ valid_base64 s.
Proof.
  intros Hlen [bs ->]. apply Hlen. apply Base64Facts.b64encode_length.
Qed.

(** C2, as stated, fails: ["QUJD!"] is not the base64 encoding of any
    bytes, yet [base64.b64decode] passes over the character outside the
    alphabet and the call saves the bytes [ABC] instead of raising. *)
Lemma C2_stray_character_is_decoded :
  ~ valid_base64 "QUJD!"
  /\ scan_events [event_of [tool_part [image_item "QUJD!"]]] JNull
     = Ok (JStr "QUJD!")
  /\ save_image_from_response (resolve_in "/work")
       [event_of [tool_part [image_item "QUJD!"]]]
       default_output_filename empty_world
     = (Ok (saved_status "/work/tiny_image.png"),
        with_file default_output_filename [x41; x42; x43] empty_world).
Proof.
  split; [apply not_valid_base64_length; vm_compute; discriminate|].
  split; vm_compute; reflexivity.
Qed.

(** C2, amended: whenever [base64.b64decode] rejects the data of the
    selected image item, [save_image_from_response] raises that very error
    to its caller; the item is not passed over and the not-found status is
    not returned.  The decoder rejects, with [binascii.Error], every ASCII
    string without pad character whose characters of the alphabet do not
    fill whole quads. *)
Theorem C2_decode_error_is_raised :
  (forall (resolve : string -> string) (events : list Event) (path : string)
          (w : World) (v : JVal) (e : PyExc),
     scan_events events JNull = Ok v ->
     truthy v = true ->
     b64decode v = Raise e ->
     fst (save_image_from_response resolve events path w) = Raise e
     /\ fst (save_image_from_response resolve events path w)
        <> Ok not_found_status)
  /\ (forall (resolve : string -> string) (events : list Event)
             (path : string) (w : World) (s : string),
        scan_events events JNull = Ok (JStr s) ->
        Base64.all_ascii s = true ->
        has_pad s = false ->
        (data_chars s mod 4 <> 0)%N ->
        exists e, fst (save_image_from_response resolve events path w) = Raise e
                  /\ exc_type e = binascii_Error).
Proof.
  assert (Hraise : forall resolve events path w v e,
            scan_events events JNull = Ok v -> truthy v = true ->
            b64decode v = Raise e ->
            fst (save_image_from_response resolve events path w) = Raise e).
  { intros resolve events path w v e Hscan Htrue Hdec.
    rewrite save_image_from_response_cases. now rewrite Hscan, Htrue, Hdec. }
  split.
  - intros resolve events path w v e Hscan Htrue Hdec.
    rewrite (Hraise resolve events path w v e Hscan Htrue Hdec).
    split; [reflexivity | discriminate].
  - intros resolve events path w s Hscan Ha Hp Hn.
    destruct (Base64Facts.b64decode_str_incomplete s Ha Hp Hn) as (e & Hdec & Hty).
    exists e. split; [|exact Hty].
    apply (Hraise resolve events path w (JStr s) e Hscan); [|exact Hdec].
    destruct s; [exfalso; apply Hn; reflexivity | reflexivity].
Qed.

(** The data of the specification's example is rejected for its padding. *)
Lemma C2_witness :
  scan_events [event_of [tool_part [image_item "not-valid-base64!!"]]] JNull
    = Ok (JStr "not-valid-base64!!")
  /\ truthy (JStr "not-valid-base64!!") = true
  /\ b64decode (JStr "not-valid-base64!!") = Raise Base64.incorrect_padding
  /\ Base64.all_ascii "not-valid-base64!!" = true
  /\ has_pad "not-valid-base64!!" = false
  /\ (data_chars "not-valid-base64!!" mod 4 <> 0)%N
  /\ fst (save_image_from_response (resolve_in "/work")
            [event_of [tool_part [image_item "not-valid-base64!!"]]]
            default_output_filename empty_world)
     = Raise Base64.incorrect_padding
  /\ fst (save_image_from_response (resolve_in "/work")
            [event_of [tool_part [image_item "not-valid-base64!!"]]]
            default_output_filename empty_world)
     <> Ok not_found_status
  /\ (exists e,
        fst (save_image_from_response (resolve_in "/work")
               [event_of [tool_part [image_item "not-valid-base64!!"]]]
               default_output_filename empty_world) = Raise e
        /\ exc_type e = binascii_Error).
Proof.
  destruct C2_decode_error_is_raised as [Hraise Hquad].
  split; [vm_compute; reflexivity|].
  split; [reflexivity|].
  split; [vm_compute; reflexivity|].
  split; [vm_compute; reflexivity|].
  split; [vm_compute; reflexivity|].
  split; [vm_compute; discriminate|].
  destruct (Hraise (resolve_in "/work")
              [event_of [tool_part [image_item "not-valid-base64!!"]]]
              default_output_filename empty_world (JStr "not-valid-base64!!")
              Base64.incorrect_padding) as [H1 H2];
    [vm_compute; reflexivity | reflexivity | vm_compute; reflexivity |].
  split; [exact H1|]. split; [exact H2|].
  apply (Hquad (resolve_in "/work")
           [event_of [tool_part [image_item "not-valid-base64!!"]]]
           default_output_filename empty_world "not-valid-base64!!");
    [vm_compute; reflexivity | vm_compute; reflexivity
    | vm_compute; reflexivity | vm_compute; discriminate].
Defined.

(** C3, as stated, fails: an event whose tool response has [None] for
    its response mapping holds no item at all, yet the call raises
    [AttributeError] on it instead of returning the not-found status. *)
Lemma C3_missing_response_raises :
  no_image
    (all_items
       [ event_of [ {| text := None;
                       function_response := Some {| response := None |} |} ] ])
    = true
  /\ fst (save_image_from_response (resolve_in "/work")
            [ event_of [ {| text := None;
                            function_response := Some {| response := None |} |} ] ]
            default_output_filename empty_world)
     = Raise attribute_error_get
  /\ fst (save_image_from_response (resolve_in "/work")
            [ event_of [ {| text := None;
                            function_response := Some {| response := None |} |} ] ]
            default_output_filename empty_world)
     <> Ok not_found_status.
Proof.
  split; [vm_compute; reflexivity|].
  split; [vm_compute; reflexivity | vm_compute; discriminate].
Qed.

(** C3, amended: when no item of the events is an image item with
    non-empty data and each tool response carries its response mapping,
    the call returns the not-found status, raises nothing and leaves the
    world, its files included, as it was; that status differs from every
    status of a saved image. *)
Theorem C3_not_found_is_a_normal_outcome (resolve : string -> string)
    (events : list Event) (path : string) (w : World) :
  responses_present events = true ->
  no_image (all_items events) = true ->
  save_image_from_response resolve events path w = (Ok not_found_status, w)
  /\ forall resolved, saved_status resolved <> not_found_status.
Proof.
  intros Hp Hn. split; [|apply saved_status_not_not_found].
  rewrite save_image_from_response_cases.
  now rewrite (scan_events_no_image events Hp Hn).
Qed.

Lemma C3_witness :
  responses_present
    [ {| content := None |}; event_of [text_part "hello"; tool_part [text_item]] ]
    = true
  /\ no_image
       (all_items
          [ {| content := None |};
            event_of [text_part "hello"; tool_part [text_item]] ]) = true
  /\ save_image_from_response (resolve_in "/work")
       [ {| content := None |}; event_of [text_part "hello"; tool_part [text_item]] ]
       default_output_filename empty_world
     = (Ok not_found_status, empty_world).
Proof.
  split; [vm_compute; reflexivity|].
  split; [vm_compute; reflexivity|].
  apply (C3_not_found_is_a_normal_outcome (resolve_in "/work")
           [ {| content := None |};
             event_of [text_part "hello"; tool_part [text_item]] ]
           default_output_filename empty_world);
    vm_compute; reflexivity.
Defined.

(** C4, as stated, fails on the empty byte string: its encoding is the
    empty string, which the scan does not take for image data, so the
    call returns the not-found status and writes no file. *)
Lemma C4_empty_bytes_not_saved :
  Base64.b64encode [] = ""
  /\ save_image_from_response (resolve_in "/work")
       [event_of [tool_part [image_item (Base64.b64encode [])]]]
       default_output_filename empty_world
     = (Ok not_found_status, empty_world)
  /\ (files empty_world) !! default_output_filename = None.
Proof. repeat split; vm_compute; reflexivity. Qed.

(** C4, amended: for every non-empty byte string [x], given one event
    with one image item whose data is the standard base64 encoding of
    [x], and an output path that can be written, the call writes a file
    whose contents are exactly [x]: decoding the encoding gives [x] back
    byte for byte. *)
Theorem C4_round_trip_saved (resolve : string -> string) (x : list byte)
    (path : string) (w : World) :
  x <> [] ->
  path ∉ unwritable w ->
  Base64.b64decode_str (Base64.b64encode x) = Ok x
  /\ save_image_from_response resolve
       [event_of [tool_part [image_item (Base64.b64encode x)]]] path w
     = (Ok (saved_status (resolve path)), with_file path x w)
  /\ (files (with_file path x w)) !! path = Some x.
Proof.
  intros Hx Hw. split; [apply Base64Facts.b64decode_b64encode|].
  split; [|apply lookup_insert_eq].
  rewrite save_image_from_response_cases, scan_events_single.
  pose proof (Base64Facts.b64encode_nonempty x Hx) as Hne.
  apply String.eqb_neq in Hne. rewrite Hne. cbn [truthy b64decode].
  rewrite Hne. cbn [negb].
  rewrite Base64Facts.b64decode_b64encode.
  now rewrite bool_decide_eq_false_2.
Qed.

Lemma C4_witness :
  [x89; x50; x4e; x47] <> []
  /\ (default_output_filename ∉ unwritable empty_world)
  /\ save_image_from_response (resolve_in "/work")
       [event_of [tool_part [image_item (Base64.b64encode [x89; x50; x4e; x47])]]]
       default_output_filename empty_world
     = (Ok (saved_status (resolve_in "/work" default_output_filename)),
        with_file default_output_filename [x89; x50; x4e; x47] empty_world).
Proof.
  split; [discriminate|].
  split; [apply empty_world_writable|].
  apply (C4_round_trip_saved (resolve_in "/work") [x89; x50; x4e; x47]
           default_output_filename empty_world);
    [discriminate | apply empty_world_writable].
Defined.

(** [main] on the events of a run that returned: the two opening lines,
    the call that saves the image, then the four closing lines. *)
Lemma main_cases (resolve : string -> string) (events : list Event) (w : World) :
  main resolve (Ok events) w =
  match save_image_from_response resolve events default_output_filename
          (print_all [String "010" "User > " +:+ query; rule] w) with
  | (Ok image_status, w1) =>
      (Ok tt,
       print_all
         [ rule;
           "Agent Final Text Response: " +:+ strip (final_response_text events);
           "Image Saving Status: " +:+ image_status;
           rule ] w1)
  | (Raise e, w1) => (Raise e, w1)
  end.
Proof.
  unfold main, mbind, M_bind, print, lift, print_all.
  cbn [files unwritable stdout].
  rewrite <- (app_assoc (stdout w)). cbn [app].
  destruct (save_image_from_response resolve events default_output_filename _)
    as [[image_status|e] w1]; [|reflexivity].
  cbn [files unwritable stdout]. rewrite <- !app_assoc. reflexivity.
Qed.

(** C5: on the three events of the scenario the text, once trimmed, is
    ["Here is your image."] and, the default output path being writable,
    the saved file holds exactly the bytes [ABC]; [main] prints that text
    and leaves that file. *)
Theorem C5_end_to_end (resolve : string -> string) (w : World) :
  default_output_filename ∉ unwritable w ->
  strip (final_response_text scenario) = "Here is your image."
  /\ save_image_from_response resolve scenario default_output_filename w
     = (Ok (saved_status (resolve default_output_filename)),
        with_file default_output_filename [x41; x42; x43] w)
  /\ (files (with_file default_output_filename [x41; x42; x43] w))
       !! default_output_filename = Some [x41; x42; x43]
  /\ fst (main resolve (Ok scenario) w) = Ok tt
  /\ (files (snd (main resolve (Ok scenario) w))) !! default_output_filename
     = Some [x41; x42; x43]
  /\ stdout (snd (main resolve (Ok scenario) w))
     = (stdout w ++
        [ String "010" "User > " +:+ query; rule; rule;
          "Agent Final Text Response: Here is your image.";
          "Image Saving Status: "
            +:+ saved_status (resolve default_output_filename);
          rule ])%list.
Proof.
  intros Hw.
  assert (Hsave : forall w0, default_output_filename ∉ unwritable w0 ->
            save_image_from_response resolve scenario default_output_filename w0
            = (Ok (saved_status (resolve default_output_filename)),
               with_file default_output_filename [x41; x42; x43] w0)).
  { intros w0 Hw0. rewrite save_image_from_response_cases.
    replace (scan_events scenario JNull) with (Ok (JStr "QUJD"))
      by (vm_compute; reflexivity).
    cbn [truthy String.eqb Ascii.eqb negb].
    replace (b64decode (JStr "QUJD")) with (Ok [x41; x42; x43])
      by (vm_compute; reflexivity).
    now rewrite bool_decide_eq_false_2. }
  assert (Htext : strip (final_response_text scenario) = "Here is your image.")
    by (vm_compute; reflexivity).
  split; [exact Htext|].
  split; [apply Hsave, Hw|].
  split; [apply lookup_insert_eq|].
  rewrite main_cases, Hsave by exact Hw. rewrite Htext.
  split; [reflexivity|].
  split; [apply lookup_insert_eq|].
  cbn [snd print_all with_file stdout]. now rewrite <- app_assoc.
Qed.

Lemma C5_witness :
  (default_output_filename ∉ unwritable empty_world)
  /\ strip (final_response_text scenario) = "Here is your image."
  /\ save_image_from_response (resolve_in "/work") scenario
       default_output_filename empty_world
     = (Ok (saved_status (resolve_in "/work" default_output_filename)),
        with_file default_output_filename [x41; x42; x43] empty_world)
  /\ (files (snd (main (resolve_in "/work") (Ok scenario) empty_world)))
       !! default_output_filename
     = Some [x41; x42; x43].
Proof.
  split; [apply empty_world_writable|].
  destruct (C5_end_to_end (resolve_in "/work") empty_world)
    as (Ht & Hs & _ & _ & Hm & _); [apply empty_world_writable|].
  split; [exact Ht|]. split; [exact Hs | exact Hm].
Defined.

(** ** The text of the response *)

Lemma append_assoc (a b c : string) : (a +:+ b) +:+ c = a +:+ (b +:+ c).
Proof.
  induction a as [|ch a IH]; [reflexivity|].
  change (String ch ((a +:+ b) +:+ c) = String ch (a +:+ (b +:+ c))).
  now f_equal.
Qed.

Lemma append_nil_r (a : string) : a +:+ "" = a.
Proof.
  induction a as [|ch a IH]; [reflexivity|].
  change (String ch (a +:+ "") = String ch a). now f_equal.
Qed.

Lemma join_app (l1 l2 : list string) :
  fold_right String.append "" (l1 ++ l2) =
  fold_right String.append "" l1 +:+ fold_right String.append "" l2.
Proof.
  induction l1 as [|t l1 IH]; [reflexivity|].
  cbn [app fold_right]. now rewrite IH, append_assoc.
Qed.

(** The loop over parts appends the non-empty text fields to what was
    gathered before. *)
Lemma text_parts_join (ps : list Part) (acc : string) :
  text_parts ps acc =
  acc +:+ fold_right String.append ""
            (List.filter (fun t => negb (String.eqb t "")) (omap text ps)).
Proof.
  revert acc. induction ps as [|part rest IH]; intros acc.
  - cbn. now rewrite append_nil_r.
  - cbn [text_parts omap list_omap]. destruct (text part) as [t|]; [|apply IH].
    cbn [List.filter]. destruct (negb (String.eqb t "")); [|apply IH].
    rewrite IH. cbn [fold_right]. now rewrite append_assoc.
Qed.

Lemma text_events_join (events : list Event) (acc : string) :
  text_events events acc = acc +:+ extractText events.
Proof.
  unfold extractText. revert acc.
  induction events as [|event rest IH]; intros acc.
  - cbn. now rewrite append_nil_r.
  - cbn [text_events flat_map]. rewrite join_app. unfold event_texts at 1.
    unfold event_parts. destruct (content_parts event) as [ps|].
    + rewrite IH, text_parts_join. change (default [] (Some ps)) with ps.
      now rewrite append_assoc.
    + rewrite IH. reflexivity.
Qed.

Lemma event_texts_no_text (event : Event) :
  Forall (fun part => text part = None) (event_parts event) ->
  event_texts event = [].
Proof.
  unfold event_texts. induction 1 as [|part rest Hp _ IH]; [reflexivity|].
  cbn [omap list_omap]. now rewrite Hp.
Qed.

(** C6: the text gathered by the loops of [main] is the non-empty text
    fields of the parts, in event order then part order, put end to end
    with nothing between them and nothing else; an event none of whose
    parts has a text (only tool responses) adds nothing. *)
Theorem C6_text_is_concatenation :
  (forall events : list Event, final_response_text events = extractText events)
  /\ (forall (before after : list Event) (event : Event),
        Forall (fun part => text part = None) (event_parts event) ->
        final_response_text (before ++ event :: after)
        = final_response_text (before ++ after)).
Proof.
  assert (Hall : forall events, final_response_text events = extractText events).
  { intros events. unfold final_response_text. now rewrite text_events_join. }
  split; [exact Hall|].
  intros before after event Hnone.
  rewrite !Hall. unfold extractText.
  rewrite !flat_map_app. cbn [flat_map].
  now rewrite (event_texts_no_text event Hnone).
Qed.

Lemma C6_witness :
  Forall (fun part => text part = None)
    (event_parts (event_of [tool_part [image_item "QUJD"]]))
  /\ final_response_text
       ([event_of [text_part "Here is "; text_part ""]]
        ++ event_of [tool_part [image_item "QUJD"]]
        :: [event_of [text_part "your image."]])
     = "Here is your image."
  /\ final_response_text
       ([event_of [text_part "Here is "; text_part ""]]
        ++ event_of [tool_part [image_item "QUJD"]]
        :: [event_of [text_part "your image."]])
     = final_response_text
         ([event_of [text_part "Here is "; text_part ""]]
          ++ [event_of [text_part "your image."]]).
Proof.
  assert (H : Forall (fun part => text part = None)
                (event_parts (event_of [tool_part [image_item "QUJD"]]))).
  { repeat constructor. }
  destruct C6_text_is_concatenation as [Heq Hskip].
  split; [exact H|].
  split; [rewrite Heq; reflexivity|].
  exact (Hskip [event_of [text_part "Here is "; text_part ""]]
           [event_of [text_part "your image."]]
           (event_of [tool_part [image_item "QUJD"]]) H).
Defined.

(** ** Which items the scan takes *)

Lemma is_image_item_fields (item : Item) :
  is_image_item item = true <->
  item !! "type" = Some (JStr "image")
  /\ exists d, item !! "data" = Some d /\ truthy d = true.
Proof.
  unfold is_image_item, dict_get. rewrite andb_true_iff, bool_decide_eq_true.
  split.
  - intros [Ht Hd]. split.
    + destruct (item !! "type") as [t|]; cbn in Ht; [now subst | discriminate].
    + destruct (item !! "data") as [d|]; cbn in Hd; [eauto | discriminate].
  - intros [Ht (d & Hd & Htrue)]. rewrite Ht, Hd. cbn. auto.
Qed.

(** C7: the scan yields the data of an item only if the item's type is
    ["image"] and its data is present and non-empty; an item that fails
    either test is passed over, and the scan goes on with the later items,
    then the later parts, then the later events. *)
Theorem C7_only_image_items_are_taken :
  (forall (events : list Event) (v : JVal),
     scan_events events JNull = Ok v -> v <> JNull ->
     exists item, In item (all_items events)
       /\ item !! "type" = Some (JStr "image")
       /\ item !! "data" = Some v /\ truthy v = true)
  /\ (forall (item : Item) (rest : list Item) (v : JVal),
        is_image_item item = false ->
        scan_items (item :: rest) v = scan_items rest v)
  /\ (forall (part : Part) (rest : list Part) (v : JVal),
        response_present part = true ->
        no_image (part_items part) = true ->
        scan_parts (part :: rest) v = scan_parts rest v)
  /\ (forall (event : Event) (rest : list Event),
        forallb response_present (event_parts event) = true ->
        no_image (event_items event) = true ->
        scan_events (event :: rest) JNull = scan_events rest JNull).
Proof.
  split; [|split; [|split]].
  - intros events v Hscan Hv.
    destruct (scan_events_cases events v Hscan) as [->|(item & Hin & Him & ->)];
      [congruence|].
    exists item. split; [exact Hin|].
    apply is_image_item_fields in Him as [Ht (d & Hd & Htrue)].
    unfold dict_get. rewrite Hd. cbn. auto.
  - intros item rest v H. cbn [scan_items]. now rewrite H.
  - intros part rest v Hp Hn. rewrite scan_parts_cons.
    destruct (part_content_present part Hp) as [c ->].
    now rewrite (scan_items_no_image _ _ Hn).
  - intros event rest Hp Hn. rewrite scan_events_cons.
    now rewrite (scan_parts_no_image _ _ Hp Hn).
Qed.

Lemma C7_witness :
  scan_events
    [ event_of [tool_part [text_item]];
      event_of [tool_part [ {[ "type" := JStr "image" ]};
                            {[ "type" := JStr "image"; "data" := JStr "" ]};
                            image_item "QUJD" ]] ] JNull
    = Ok (JStr "QUJD")
  /\ (exists item,
        In item
          (all_items
             [ event_of [tool_part [text_item]];
               event_of [tool_part [ {[ "type" := JStr "image" ]};
                                     {[ "type" := JStr "image"; "data" := JStr "" ]};
                                     image_item "QUJD" ]] ])
        /\ item !! "type" = Some (JStr "image")
        /\ item !! "data" = Some (JStr "QUJD") /\ truthy (JStr "QUJD") = true)
  /\ scan_items [ {[ "type" := JStr "image" ]}; image_item "QUJD" ] JNull
     = scan_items [ image_item "QUJD" ] JNull
  /\ scan_parts [ tool_part [text_item]; tool_part [image_item "QUJD"] ] JNull
     = scan_parts [ tool_part [image_item "QUJD"] ] JNull
  /\ scan_events
       [ event_of [tool_part [text_item]];
         event_of [tool_part [image_item "QUJD"]] ] JNull
     = scan_events [ event_of [tool_part [image_item "QUJD"]] ] JNull.
Proof.
  destruct C7_only_image_items_are_taken as (Hyield & Hitem & Hpart & Hevent).
  split; [vm_compute; reflexivity|].
  split; [apply Hyield; [vm_compute; reflexivity | discriminate]|].
  split; [apply Hitem; vm_compute; reflexivity|].
  split; [apply Hpart; vm_compute; reflexivity|].
  apply Hevent; vm_compute; reflexivity.
Defined.

(** ** The top-level handlers *)

(** C8, as stated, fails: an exception of the run that is not an
    [Exception], here [asyncio.CancelledError] raised by the awaited call
    of the runner, matches neither [except] clause and leaves the script
    uncaught. *)
Lemma C8_CancelledError_is_not_caught :
  isinstance (mkExc CancelledError "") BaseExceptionGroup = false
  /\ fst (asyncio_run_main (resolve_in "/work")
            (Raise (mkExc CancelledError "")) None empty_world)
     = Raise (mkExc CancelledError "")
  /\ fst (script (resolve_in "/work") (Raise (mkExc CancelledError "")) None
            empty_world)
     = Uncaught (mkExc CancelledError "")
  /\ fst (script (resolve_in "/work") (Raise (mkExc CancelledError "")) None
            empty_world)
     <> Completed.
Proof. repeat split; try (vm_compute; reflexivity). discriminate. Qed.

(** C8, amended: an exception raised from [asyncio.run(main())] whose
    class derives from [BaseExceptionGroup] or from [Exception] does not
    leave the script: the script completes, the files are as the run left
    them, and one report is printed, the cleanup notice for a
    [BaseExceptionGroup] and the fatal-error line for any other
    [Exception].  An exception of one of the other classes leaves the
    script uncaught, nothing more being printed. *)
Theorem C8_exceptions_are_reported (resolve : string -> string)
    (run_debug : Result (list Event)) (shutdown : option PyExc)
    (w w' : World) (e : PyExc) :
  asyncio_run_main resolve run_debug shutdown w = (Raise e, w') ->
  (~ In (exc_type e) outside_Exception ->
   fst (script resolve run_debug shutdown w) = Completed
   /\ files (snd (script resolve run_debug shutdown w)) = files w'
   /\ stdout (snd (script resolve run_debug shutdown w))
      = (stdout w' ++ (if isinstance e BaseExceptionGroup then cleanup_lines
                       else [fatal_line e]))%list)
  /\ (In (exc_type e) outside_Exception ->
      script resolve run_debug shutdown w = (Uncaught e, w')).
Proof.
  intros Hrun. unfold script. rewrite Hrun. unfold handle, isinstance.
  destruct e as [c msg]. cbn [exc_type] in *.
  split.
  - intros Hcls.
    destruct c; cbn in Hcls; try (exfalso; tauto);
      repeat split; vm_compute; reflexivity.
  - intros Hcls.
    destruct c; cbn in Hcls;
      try (vm_compute; reflexivity);
      repeat (destruct Hcls as [Hcls|Hcls]; [discriminate|]);
      destruct Hcls.
Qed.

Lemma C8_witness :
  asyncio_run_main (resolve_in "/work") (Ok scenario)
    (Some (mkExc ExceptionGroup "unhandled errors in a TaskGroup")) empty_world
  = (Raise (mkExc ExceptionGroup "unhandled errors in a TaskGroup"),
     snd (main (resolve_in "/work") (Ok scenario) empty_world))
  /\ ~ In ExceptionGroup outside_Exception
  /\ fst (script (resolve_in "/work") (Ok scenario)
            (Some (mkExc ExceptionGroup "unhandled errors in a TaskGroup"))
            empty_world) = Completed
  /\ (files (snd (script (resolve_in "/work") (Ok scenario)
                    (Some (mkExc ExceptionGroup "unhandled errors in a TaskGroup"))
                    empty_world))) !! default_output_filename
     = Some [x41; x42; x43]
  /\ In KeyboardInterrupt outside_Exception
  /\ fst (script (resolve_in "/work") (Raise (mkExc KeyboardInterrupt ""))
            None empty_world)
     = Uncaught (mkExc KeyboardInterrupt "").
Proof.
  assert (Hrun :
    asyncio_run_main (resolve_in "/work") (Ok scenario)
      (Some (mkExc ExceptionGroup "unhandled errors in a TaskGroup")) empty_world
    = (Raise (mkExc ExceptionGroup "unhandled errors in a TaskGroup"),
       snd (main (resolve_in "/work") (Ok scenario) empty_world))).
  { vm_compute. reflexivity. }
  assert (Hcls : ~ In (exc_type (mkExc ExceptionGroup "unhandled errors in a TaskGroup"))
                   outside_Exception).
  { cbn. intros H. repeat (destruct H as [H|H]; [discriminate|]). exact H. }
  destruct (C8_exceptions_are_reported (resolve_in "/work") (Ok scenario)
              (Some (mkExc ExceptionGroup "unhandled errors in a TaskGroup"))
              empty_world _ _ Hrun) as [Hcaught _].
  destruct (Hcaught Hcls) as (Hexit & Hfiles & _).
  split; [exact Hrun|]. split; [exact Hcls|]. split; [exact Hexit|].
  split; [rewrite Hfiles; vm_compute; reflexivity|].
  assert (Hin : In (exc_type (mkExc KeyboardInterrupt "")) outside_Exception).
  { cbn. auto. }
  split; [exact Hin|].
  destruct (C8_exceptions_are_reported (resolve_in "/work")
              (Raise (mkExc KeyboardInterrupt "")) None empty_world
              (snd (asyncio_run_main (resolve_in "/work")
                      (Raise (mkExc KeyboardInterrupt "")) None empty_world))
              (mkExc KeyboardInterrupt ""))
    as [_ Hout]; [vm_compute; reflexivity|].
  now rewrite (Hout Hin).
Defined.

(** ** Decoding before writing *)

(** C9: when decoding the selected image data raises, the call has
    written nothing: decoding comes before the write, and the world, the
    file at the output path included, is as it was before the call. *)
Theorem C9_decode_failure_writes_nothing (resolve : string -> string)
    (events : list Event) (path : string) (w : World) (v : JVal) (e : PyExc) :
  scan_events events JNull = Ok v ->
  truthy v = true ->
  b64decode v = Raise e ->
  snd (save_image_from_response resolve events path w) = w
  /\ (files (snd (save_image_from_response resolve events path w))) !! path
     = (files w) !! path.
Proof.
  intros Hscan Htrue Hdec.
  assert (H : snd (save_image_from_response resolve events path w) = w).
  { rewrite save_image_from_response_cases. now rewrite Hscan, Htrue, Hdec. }
  split; [exact H | now rewrite H].
Qed.

Lemma C9_witness :
  scan_events [event_of [tool_part [image_item "not-valid-base64!!"]]] JNull
    = Ok (JStr "not-valid-base64!!")
  /\ truthy (JStr "not-valid-base64!!") = true
  /\ b64decode (JStr "not-valid-base64!!") = Raise Base64.incorrect_padding
  /\ (files (snd (save_image_from_response (resolve_in "/work")
                    [event_of [tool_part [image_item "not-valid-base64!!"]]]
                    default_output_filename world_with_old_file)))
       !! default_output_filename
     = Some [x6f; x6c; x64].
Proof.
  split; [vm_compute; reflexivity|].
  split; [reflexivity|].
  split; [vm_compute; reflexivity|].
  destruct (C9_decode_failure_writes_nothing (resolve_in "/work")
              [event_of [tool_part [image_item "not-valid-base64!!"]]]
              default_output_filename world_with_old_file
              (JStr "not-valid-base64!!") Base64.incorrect_padding)
    as [_ Hfile]; [vm_compute; reflexivity | reflexivity
                  | vm_compute; reflexivity |].
  rewrite Hfile. vm_compute. reflexivity.
Defined.

(** ** Parts and events with nothing to scan *)

Lemma without_content_items (part : Part) :
  without_content part = true ->
  response_present part = true /\ part_items part = [].
Proof.
  unfold without_content, response_present, part_items.
  destruct (function_response part) as [[[d|]]|]; intros H;
    [|discriminate|auto].
  apply bool_decide_eq_true in H. rewrite H. auto.
Qed.

Lemma without_content_parts (ps : list Part) :
  forallb without_content ps = true ->
  forallb response_present ps = true /\ flat_map part_items ps = [].
Proof.
  induction ps as [|part rest IH]; [auto|].
  cbn [forallb flat_map]. intros H. apply andb_true_iff in H as [Hp Hrest].
  destruct (without_content_items part Hp) as [-> ->].
  destruct (IH Hrest) as [-> ->]. auto.
Qed.

(** C10: a part whose tool response has no ["content"] key is scanned as
    if its content were the empty list, without raising; an event whose
    content is absent, or whose list of parts is absent or empty, is
    passed over; on events made only of such parts the scan runs to its
    end and the call returns the not-found status, the world unchanged. *)
Theorem C10_missing_content_is_skipped :
  (forall (part : Part) (fr : FunctionResponse) (d : gmap string (list Item))
          (rest : list Part) (v : JVal),
     function_response part = Some fr -> response fr = Some d ->
     d !! "content" = None ->
     part_content part = Ok (Some [])
     /\ scan_parts (part :: rest) v = scan_parts rest v)
  /\ (forall (event : Event) (rest : list Event) (v : JVal),
        (content event = None
         \/ exists c, content event = Some c
                      /\ (parts c = None \/ parts c = Some [])) ->
        scan_events (event :: rest) v = scan_events rest v)
  /\ (forall (resolve : string -> string) (events : list Event)
             (path : string) (w : World),
        forallb (fun event => forallb without_content (event_parts event))
          events = true ->
        scan_events events JNull = Ok JNull
        /\ save_image_from_response resolve events path w
           = (Ok not_found_status, w)).
Proof.
  split; [|split].
  - intros part fr d rest v Hfr Hresp Hkey.
    assert (Hc : part_content part = Ok (Some [])).
    { unfold part_content. now rewrite Hfr, Hresp, Hkey. }
    split; [exact Hc|]. cbn [scan_parts]. now rewrite Hc.
  - intros event rest v H. cbn [scan_events]. unfold content_parts.
    destruct H as [->|(c & -> & [->| ->])]; reflexivity.
  - intros resolve events path w H.
    assert (Hscan : scan_events events JNull = Ok JNull).
    { apply scan_events_no_image.
      - unfold responses_present. apply forallb_forall. intros event Hin.
        rewrite forallb_forall in H.
        now destruct (without_content_parts _ (H event Hin)).
      - unfold all_items, no_image.
        induction events as [|event rest IH]; [reflexivity|].
        cbn [forallb flat_map] in *. apply andb_true_iff in H as [He Hrest].
        unfold event_items at 1.
        destruct (without_content_parts _ He) as [_ ->]. now apply IH. }
    split; [exact Hscan|].
    rewrite save_image_from_response_cases. now rewrite Hscan.
Qed.

Lemma C10_witness :
  part_content
    {| text := None; function_response := Some {| response := Some ∅ |} |}
    = Ok (Some [])
  /\ scan_parts
       [ {| text := None; function_response := Some {| response := Some ∅ |} |};
         tool_part [image_item "QUJD"] ] JNull
     = scan_parts [ tool_part [image_item "QUJD"] ] JNull
  /\ scan_events
       [ {| content := None |}; event_of [tool_part [image_item "QUJD"]] ] JNull
     = scan_events [ event_of [tool_part [image_item "QUJD"]] ] JNull
  /\ scan_events
       [ {| content := Some {| parts := Some [] |} |};
         event_of [tool_part [image_item "QUJD"]] ] JNull
     = scan_events [ event_of [tool_part [image_item "QUJD"]] ] JNull
  /\ save_image_from_response (resolve_in "/work")
       [ {| content := None |};
         {| content := Some {| parts := None |} |};
         event_of
           [ {| text := None;
                function_response := Some {| response := Some ∅ |} |} ] ]
       default_output_filename empty_world
     = (Ok not_found_status, empty_world).
Proof.
  destruct C10_missing_content_is_skipped as (Hpart & Hevent & Htotal).
  destruct (Hpart
              {| text := None; function_response := Some {| response := Some ∅ |} |}
              {| response := Some ∅ |} ∅ [tool_part [image_item "QUJD"]] JNull)
    as [Hc Hs]; [reflexivity | reflexivity | apply lookup_empty |].
  split; [exact Hc|]. split; [exact Hs|].
  split; [apply Hevent; left; reflexivity|].
  split; [apply Hevent; right; eexists; split; [reflexivity | right; reflexivity]|].
  apply Htotal. vm_compute. reflexivity.
Defined.

(** * Further properties of the script *)

(** ** The scan over several parts and events *)

Lemma scan_items_app (l1 l2 : list Item) (v : JVal) :
  scan_items (l1 ++ l2) v = scan_items l1 (scan_items l2 v).
Proof.
  induction l1 as [|item rest IH]; [reflexivity|].
  cbn [app scan_items]. destruct (is_image_item item); [reflexivity | exact IH].
Qed.

Lemma no_image_flat_map (ps : list Part) :
  List.filter has_image ps = [] -> no_image (flat_map part_items ps) = true.
Proof.
  induction ps as [|part rest IH]; [reflexivity|].
  cbn [List.filter flat_map]. unfold has_image at 1.
  destruct (no_image (part_items part)) eqn:E; cbn [negb]; [|discriminate].
  intros H. unfold no_image in *. rewrite forallb_app, E. now apply IH.
Qed.

Lemma fold_scan_no_image (ps : list Part) (v : JVal) :
  List.filter has_image ps = [] ->
  fold_left (fun acc part => scan_items (part_items part) acc) ps v = v.
Proof.
  revert v. induction ps as [|part rest IH]; intros v; [reflexivity|].
  cbn [List.filter fold_left]. unfold has_image at 1.
  destruct (no_image (part_items part)) eqn:E; cbn [negb]; [|discriminate].
  intros H. rewrite (scan_items_no_image _ _ E). now apply IH.
Qed.

(** With at most one part holding an image, going through the parts one
    after the other is going through all their items in order. *)
Lemma fold_scan_single (ps : list Part) (v : JVal) :
  (length (List.filter has_image ps) <= 1)%nat ->
  fold_left (fun acc part => scan_items (part_items part) acc) ps v
  = scan_items (flat_map part_items ps) v.
Proof.
  revert v. induction ps as [|part rest IH]; intros v; [reflexivity|].
  cbn [List.filter fold_left flat_map]. rewrite scan_items_app.
  unfold has_image at 1.
  destruct (no_image (part_items part)) eqn:E; cbn [negb length]; intros H.
  - rewrite (scan_items_no_image _ _ E), (scan_items_no_image _ _ E).
    now apply IH.
  - assert (Hrest : List.filter has_image rest = []).
    { destruct (List.filter has_image rest); [reflexivity | cbn in H; lia]. }
    rewrite (fold_scan_no_image _ _ Hrest).
    now rewrite (scan_items_no_image _ _ (no_image_flat_map _ Hrest)).
Qed.

Lemma first_image_scan (events : list Event) :
  first_image events = scan_items (all_items events) JNull.
Proof. unfold first_image. now rewrite scan_items_find. Qed.

(** The scan of the parts of an event, started with [None], ends with
    [None] or with a true value. *)
Lemma scan_parts_null_or_true (ps : list Part) (v : JVal) :
  scan_parts ps JNull = Ok v -> v = JNull \/ truthy v = true.
Proof.
  intros H. destruct (scan_parts_cases _ _ _ H) as [->|(it & _ & Him & ->)];
    [now left | right; now apply truthy_false_image].
Qed.

(** X1: when every tool response carries its response mapping and no
    event holds image items in more than one part, the scan selects the
    data of the first image item in event order, then part order, then
    item order ([None] when there is none). *)
Theorem X1_first_image_when_one_part_per_event (events : list Event) :
  responses_present events = true ->
  forallb single_image_part events = true ->
  scan_events events JNull = Ok (first_image events).
Proof.
  rewrite first_image_scan.
  induction events as [|event rest IH]; [reflexivity|].
  cbn [responses_present forallb]. intros Hp Hs.
  apply andb_true_iff in Hp as [Hp Hps]. apply andb_true_iff in Hs as [Hs Hss].
  unfold single_image_part in Hs. apply Nat.leb_le in Hs.
  rewrite scan_events_cons, (scan_parts_fold _ _ Hp), (fold_scan_single _ _ Hs).
  unfold all_items. cbn [flat_map]. rewrite scan_items_app.
  fold (event_items event). fold (all_items rest).
  rewrite (scan_items_find (event_items event) JNull).
  rewrite (scan_items_find (event_items event) (scan_items (all_items rest) JNull)).
  destruct (List.find is_image_item (event_items event)) as [item|] eqn:E.
  - apply find_some in E as [_ Him].
    now rewrite (truthy_false_image item Him).
  - cbn [truthy]. now apply IH.
Qed.

Lemma X1_witness :
  responses_present
    [ event_of [text_part "a"; tool_part [text_item]];
      event_of [tool_part [text_item; image_item "QUJD"; image_item "REVG"]];
      event_of [tool_part [image_item "R0hJ"]] ] = true
  /\ forallb single_image_part
       [ event_of [text_part "a"; tool_part [text_item]];
         event_of [tool_part [text_item; image_item "QUJD"; image_item "REVG"]];
         event_of [tool_part [image_item "R0hJ"]] ] = true
  /\ scan_events
       [ event_of [text_part "a"; tool_part [text_item]];
         event_of [tool_part [text_item; image_item "QUJD"; image_item "REVG"]];
         event_of [tool_part [image_item "R0hJ"]] ] JNull
     = Ok (JStr "QUJD").
Proof.
  split; [vm_compute; reflexivity|].
  split; [vm_compute; reflexivity|].
  rewrite (X1_first_image_when_one_part_per_event
             [ event_of [text_part "a"; tool_part [text_item]];
               event_of [tool_part [text_item; image_item "QUJD"; image_item "REVG"]];
               event_of [tool_part [image_item "R0hJ"]] ]);
    vm_compute; reflexivity.
Defined.

(** X2: the scan of two runs of events put end to end.  If the first run
    raises, so does the whole; if it selects an image, the events of the
    second run are not read at all; otherwise the result is that of the
    second run. *)
Theorem X2_scan_of_appended_events (events1 events2 : list Event) :
  scan_events (events1 ++ events2) JNull =
  match scan_events events1 JNull with
  | Ok v => if truthy v then Ok v else scan_events events2 JNull
  | Raise e => Raise e
  end.
Proof.
  induction events1 as [|event rest IH]; [reflexivity|].
  cbn [app]. rewrite !scan_events_cons.
  destruct (scan_parts (event_parts event) JNull) as [v|e] eqn:E; [|reflexivity].
  destruct (scan_parts_null_or_true _ _ E) as [->|Ht].
  - cbn [truthy]. exact IH.
  - now rewrite !Ht.
Qed.

(** X3: on events whose tool responses hold, under ["content"], a list
    of mappings with scalar values, the scan raises nothing but the
    [AttributeError] of a tool response without its response mapping;
    when every tool response carries one, the scan returns, with [None]
    or a true value. *)
Theorem X3_scan_raises_only_for_missing_response :
  (forall (events : list Event) (e : PyExc),
     scan_events events JNull = Raise e ->
     e = attribute_error_get /\ responses_present events = false)
  /\ (forall events : list Event,
        responses_present events = true ->
        exists v, scan_events events JNull = Ok v
                  /\ (v = JNull \/ truthy v = true)).
Proof.
  assert (Hparts : forall ps v e, scan_parts ps v = Raise e ->
            e = attribute_error_get /\ forallb response_present ps = false).
  { induction ps as [|part rest IH]; intros v e H; [discriminate|].
    rewrite scan_parts_cons in H. cbn [forallb].
    unfold part_content, response_present in *.
    destruct (function_response part) as [[[d|]]|].
    - apply IH in H as [-> ->]. auto.
    - inversion H. auto.
    - apply IH in H as [-> ->]. auto. }
  split.
  - induction events as [|event rest IH]; intros e H; [discriminate|].
    rewrite scan_events_cons in H. cbn [responses_present forallb].
    destruct (scan_parts (event_parts event) JNull) as [v|e0] eqn:E.
    + destruct (scan_parts_null_or_true _ _ E) as [->|Ht].
      * cbn [truthy] in H. apply IH in H as [-> Hr].
        unfold responses_present in Hr. rewrite Hr. now rewrite andb_false_r.
      * rewrite Ht in H. discriminate.
    + inversion H; subst e0. apply Hparts in E as [-> ->]. auto.
  - induction events as [|event rest IH]; intros Hp.
    + exists JNull. split; [reflexivity | now left].
    + cbn [responses_present forallb] in Hp.
      apply andb_true_iff in Hp as [Hp Hps].
      rewrite scan_events_cons, (scan_parts_fold _ _ Hp).
      pose proof (scan_parts_fold _ JNull Hp) as Hfold.
      destruct (scan_parts_null_or_true _ _ Hfold) as [Hn|Ht].
      * rewrite Hn. cbn [truthy]. now apply IH.
      * rewrite Ht. eexists. split; [reflexivity | now right].
Qed.

Lemma X3_witness :
  scan_events
    [ event_of [ {| text := None;
                    function_response := Some {| response := None |} |} ] ]
    JNull = Raise attribute_error_get
  /\ responses_present
       [ event_of [ {| text := None;
                       function_response := Some {| response := None |} |} ] ]
     = false
  /\ responses_present [event_of [tool_part [image_item "QUJD"]]] = true
  /\ (exists v, scan_events [event_of [tool_part [image_item "QUJD"]]] JNull = Ok v
                /\ (v = JNull \/ truthy v = true)).
Proof.
  destruct X3_scan_raises_only_for_missing_response as [Hraise Hok].
  split; [vm_compute; reflexivity|].
  split; [apply (Hraise _ attribute_error_get); vm_compute; reflexivity|].
  split; [vm_compute; reflexivity|].
  apply Hok. vm_compute. reflexivity.
Defined.

(** ** What [save_image_from_response] raises and what it changes *)

Lemma a2b_loop_raise_class (s : string) (quad_pos leftchar pads : N)
    (out : list byte) (e : PyExc) :
  Base64.a2b_loop s quad_pos leftchar pads out = Raise e ->
  exc_type e = binascii_Error.
Proof.
  revert quad_pos leftchar pads out.
  induction s as [|c rest IH]; intros quad_pos leftchar pads out H.
  - cbn [Base64.a2b_loop] in H.
    destruct (quad_pos =? 0)%N; [discriminate|].
    destruct (quad_pos =? 1)%N; inversion H; reflexivity.
  - cbn [Base64.a2b_loop] in H.
    repeat match type of H with
           | context [match ?x with _ => _ end] => destruct x
           end;
      try discriminate; eauto.
Qed.

Lemma b64decode_raise_class (v : JVal) (e : PyExc) :
  b64decode v = Raise e ->
  In (exc_type e) [TypeError; ValueError; binascii_Error].
Proof.
  destruct v as [|b|n|s]; cbn [b64decode]; intros H;
    try (inversion H; cbn; tauto).
  unfold Base64.b64decode_str, Base64.a2b_base64 in H.
  destruct (Base64.all_ascii s).
  - apply a2b_loop_raise_class in H. rewrite H. cbn. tauto.
  - inversion H. cbn. tauto.
Qed.

Lemma scan_events_raise (events : list Event) (v : JVal) (e : PyExc) :
  scan_events events v = Raise e -> e = attribute_error_get.
Proof.
  assert (Hparts : forall ps v0, scan_parts ps v0 = Raise e ->
            e = attribute_error_get).
  { induction ps as [|part rest IH]; intros v0 H; [discriminate|].
    rewrite scan_parts_cons in H. unfold part_content in H.
    destruct (function_response part) as [[[d|]]|];
      [eapply IH; exact H | inversion H; reflexivity | eapply IH; exact H]. }
  revert v. induction events as [|event rest IH]; intros v H; [discriminate|].
  cbn [scan_events] in H.
  destruct (content_parts event) as [ps|]; [|eauto].
  destruct (scan_parts ps v) as [v0|e0] eqn:E.
  - cbn [mbind Result_bind] in H. destruct (truthy v0); [discriminate | eauto].
  - cbn [mbind Result_bind] in H. inversion H; subst e0. eauto.
Qed.

(** Every exception of the call is one of five classes. *)
Lemma save_raise_class (resolve : string -> string) (events : list Event)
    (path : string) (w w' : World) (e : PyExc) :
  save_image_from_response resolve events path w = (Raise e, w') ->
  In (exc_type e) save_errors.
Proof.
  rewrite save_image_from_response_cases.
  destruct (scan_events events JNull) as [v|e0] eqn:Es.
  - destruct (truthy v); [|discriminate].
    destruct (b64decode v) as [bs|e0] eqn:Ed.
    + destruct (bool_decide (path ∈ unwritable w)); [|discriminate].
      intros H. inversion H. cbn. tauto.
    + intros H. inversion H; subst e0.
      apply b64decode_raise_class in Ed. cbn in *. tauto.
  - intros H. inversion H; subst e0.
    apply scan_events_raise in Es. subst e. cbn. tauto.
Qed.

Lemma save_errors_are_Exceptions (e : PyExc) :
  In (exc_type e) save_errors ->
  isinstance e Exception = true /\ isinstance e BaseExceptionGroup = false.
Proof.
  unfold isinstance. destruct e as [c msg]. cbn [exc_type].
  intros H. cbn in H.
  repeat (destruct H as [<-|H]; [split; vm_compute; reflexivity|]).
  destruct H.
Qed.

(** X4: whatever [save_image_from_response] raises, on events whose
    tool responses hold lists of mappings with scalar values, is an
    [AttributeError], a [TypeError], a [ValueError], a [binascii.Error] or
    an [OSError]: an [Exception], never an exception group. *)
Theorem X4_save_raises_plain_exceptions (resolve : string -> string)
    (events : list Event) (path : string) (w w' : World) (e : PyExc) :
  save_image_from_response resolve events path w = (Raise e, w') ->
  In (exc_type e) save_errors
  /\ isinstance e Exception = true
  /\ isinstance e BaseExceptionGroup = false.
Proof.
  intros H. pose proof (save_raise_class _ _ _ _ _ _ H) as Hc.
  destruct (save_errors_are_Exceptions e Hc) as [He Hg].
  repeat split; assumption.
Qed.

Lemma X4_witness :
  save_image_from_response (resolve_in "/work")
    [event_of [tool_part [image_item "QUJDR"]]]
    default_output_filename world_with_old_file
  = (Raise (Base64.invalid_length 3), world_with_old_file)
  /\ In binascii_Error save_errors
  /\ isinstance (Base64.invalid_length 3) Exception = true
  /\ isinstance (Base64.invalid_length 3) BaseExceptionGroup = false.
Proof.
  assert (H : save_image_from_response (resolve_in "/work")
                [event_of [tool_part [image_item "QUJDR"]]]
                default_output_filename world_with_old_file
              = (Raise (Base64.invalid_length 3), world_with_old_file)).
  { vm_compute. reflexivity. }
  destruct (X4_save_raises_plain_exceptions _ _ _ _ _ _ H) as (Hc & He & Hg).
  split; [exact H|]. split; [exact Hc|]. split; [exact He | exact Hg].
Defined.

(** The call prints nothing. *)
Lemma save_stdout (resolve : string -> string) (events : list Event)
    (path : string) (w : World) :
  stdout (snd (save_image_from_response resolve events path w)) = stdout w.
Proof.
  rewrite save_image_from_response_cases.
  destruct (scan_events events JNull) as [v|e]; [|reflexivity].
  destruct (truthy v); [|reflexivity].
  destruct (b64decode v) as [bs|e]; [|reflexivity].
  destruct (bool_decide (path ∈ unwritable w)); reflexivity.
Qed.

(** When the write is not reached, the world is as it was. *)
Lemma save_before_write (resolve : string -> string) (events : list Event)
    (path : string) (w : World) :
  (forall v, scan_events events JNull = Ok v -> truthy v = true ->
             exists e, b64decode v = Raise e) ->
  snd (save_image_from_response resolve events path w) = w.
Proof.
  intros H. rewrite save_image_from_response_cases.
  destruct (scan_events events JNull) as [v|e]; [|reflexivity].
  destruct (truthy v) eqn:Ht; [|reflexivity].
  destruct (H v eq_refl Ht) as [e ->]. reflexivity.
Qed.



(** X7: image data that is true but not a string (a number, [True]) is
    selected by the scan and then refused by the decoder: the call raises
    [TypeError] and writes nothing. *)
Theorem X7_data_not_a_string_raises_TypeError (resolve : string -> string)
    (events : list Event) (path : string) (w : World) (v : JVal) :
  scan_events events JNull = Ok v ->
  truthy v = true ->
  (forall s, v <> JStr s) ->
  exists e, save_image_from_response resolve events path w = (Raise e, w)
            /\ exc_type e = TypeError.
Proof.
  intros Hscan Ht Hns. rewrite save_image_from_response_cases, Hscan, Ht.
  destruct v as [|b|n|s]; cbn [b64decode];
    try (eexists; split; reflexivity).
  exfalso. now apply (Hns s).
Qed.

Lemma X7_witness :
  scan_events
    [event_of [tool_part [ {[ "type" := JStr "image"; "data" := JNum 7 ]} ]]]
    JNull = Ok (JNum 7)
  /\ truthy (JNum 7) = true
  /\ (forall s, JNum 7 <> JStr s)
  /\ (exists e,
        save_image_from_response (resolve_in "/work")
          [event_of [tool_part [ {[ "type" := JStr "image"; "data" := JNum 7 ]} ]]]
          default_output_filename empty_world = (Raise e, empty_world)
        /\ exc_type e = TypeError).
Proof.
  split; [vm_compute; reflexivity|].
  split; [reflexivity|].
  split; [discriminate|].
  apply (X7_data_not_a_string_raises_TypeError (resolve_in "/work") _
           default_output_filename empty_world (JNum 7));
    [vm_compute; reflexivity | reflexivity | discriminate].
Defined.

(** ** The script as a whole *)

Lemma handle_caught (e : PyExc) (w : World) :
  ~ In (exc_type e) outside_Exception ->
  fst (handle (Raise e, w)) = Completed.
Proof.
  unfold handle, isinstance. destruct e as [c msg]. cbn [exc_type].
  intros H. destruct c; cbn in H; try (exfalso; tauto); vm_compute; reflexivity.
Qed.

(** The call does not look at what was printed: lines printed before it
    can as well be printed after it. *)
Lemma save_print_all (resolve : string -> string) (events : list Event)
    (path : string) (lines : list string) (w : World) :
  save_image_from_response resolve events path (print_all lines w) =
  (fst (save_image_from_response resolve events path w),
   print_all lines (snd (save_image_from_response resolve events path w))).
Proof.
  rewrite !save_image_from_response_cases.
  destruct (scan_events events JNull) as [v|e]; [|reflexivity].
  destruct (truthy v); [|reflexivity].
  destruct (b64decode v) as [bs|e]; [|reflexivity].
  cbn [print_all unwritable].
  destruct (bool_decide (path ∈ unwritable w)); reflexivity.
Qed.

(** X8: on the events of a run that returned, the script never ends on
    an uncaught exception, whatever the events and the files, provided
    the shutdown raises nothing or an exception deriving from [Exception]
    or [BaseExceptionGroup]: every failure of the scan, of the decoding
    or of the write is caught at the top level. *)
Theorem X8_script_completes (resolve : string -> string)
    (events : list Event) (shutdown : option PyExc) (w : World) :
  (forall e, shutdown = Some e -> ~ In (exc_type e) outside_Exception) ->
  fst (script resolve (Ok events) shutdown w) = Completed.
Proof.
  intros Hshut. unfold script, asyncio_run_main, mbind, M_bind.
  rewrite main_cases.
  destruct (save_image_from_response resolve events default_output_filename _)
    as [[image_status|e] w1] eqn:E.
  - destruct shutdown as [e|]; [|reflexivity].
    unfold lift. apply handle_caught. now apply Hshut.
  - apply save_raise_class in E.
    destruct (save_errors_are_Exceptions e E) as [He Hg].
    unfold handle. now rewrite Hg, He.
Qed.

Lemma X8_witness :
  (forall e, Some (mkExc RuntimeError "Attempted to exit cancel scope") = Some e ->
             ~ In (exc_type e) outside_Exception)
  /\ fst (script (resolve_in "/work")
            (Ok [event_of [tool_part [image_item "not-valid-base64!!"]]])
            (Some (mkExc RuntimeError "Attempted to exit cancel scope"))
            empty_world) = Completed
  /\ fst (script (resolve_in "/work") (Ok scenario) None
            {| files := ∅; unwritable := {[ default_output_filename ]};
               stdout := [] |}) = Completed.
Proof.
  assert (H : forall e,
            Some (mkExc RuntimeError "Attempted to exit cancel scope") = Some e ->
            ~ In (exc_type e) outside_Exception).
  { intros e He. inversion He. cbn. intros Hin.
    repeat (destruct Hin as [Hin|Hin]; [discriminate|]). exact Hin. }
  split; [exact H|].
  split; [exact (X8_script_completes _ _ _ _ H)|].
  apply X8_script_completes. intros e He. discriminate.
Defined.

(** X9: when the call that saves the image raises, [main] stops there:
    the script completes, and its own prints are the two opening lines
    and the fatal-error line only - the agent's text and the saving status
    are not printed.  When the failure comes before the write (the scan
    raises, or the selected data fails to decode), no file is changed. *)
Theorem X9_save_failure_hides_the_text (resolve : string -> string)
    (events : list Event) (w : World) (e : PyExc) :
  fst (save_image_from_response resolve events default_output_filename w)
    = Raise e ->
  fst (script resolve (Ok events) None w) = Completed
  /\ stdout (snd (script resolve (Ok events) None w))
     = (stdout w ++ opening_lines ++ [fatal_line e])%list
  /\ ((forall v, scan_events events JNull = Ok v -> truthy v = true ->
                 exists e', b64decode v = Raise e') ->
      script resolve (Ok events) None w
      = (Completed, print_all [fatal_line e] (print_all opening_lines w))).
Proof.
  intros H.
  assert (Hs : script resolve (Ok events) None w
               = (Completed,
                  print_all [fatal_line e]
                    (print_all opening_lines
                       (snd (save_image_from_response resolve events
                               default_output_filename w))))).
  { unfold script, asyncio_run_main, mbind, M_bind.
    rewrite main_cases. fold opening_lines. rewrite save_print_all, H.
    destruct (save_image_from_response resolve events default_output_filename w)
      as [r w1] eqn:E.
    cbn [fst snd] in *. subst r.
    pose proof (save_raise_class _ _ _ _ _ _ E) as Hc.
    destruct (save_errors_are_Exceptions e Hc) as [He Hg].
    unfold handle. now rewrite Hg, He. }
  rewrite Hs. split; [reflexivity|]. split.
  - cbn [snd print_all stdout]. rewrite save_stdout.
    now rewrite <- app_assoc.
  - intros Hbefore. now rewrite (save_before_write _ _ _ _ Hbefore).
Qed.

Lemma X9_witness :
  fst (save_image_from_response (resolve_in "/work")
         [event_of [text_part "Here it is.";
                    tool_part [image_item "not-valid-base64!!"]]]
         default_output_filename world_with_old_file)
    = Raise Base64.incorrect_padding
  /\ (forall v,
        scan_events
          [event_of [text_part "Here it is.";
                     tool_part [image_item "not-valid-base64!!"]]] JNull = Ok v ->
        truthy v = true -> exists e', b64decode v = Raise e')
  /\ script (resolve_in "/work")
       (Ok [event_of [text_part "Here it is.";
                      tool_part [image_item "not-valid-base64!!"]]])
       None world_with_old_file
     = (Completed,
        {| files := {[ default_output_filename := [x6f; x6c; x64] ]};
           unwritable := ∅;
           stdout := [ String "010" "User > Provide a sample tiny image";
                       rule;
                       "An unexpected fatal error occurred: Incorrect padding" ] |}).
Proof.
  assert (H : fst (save_image_from_response (resolve_in "/work")
                     [event_of [text_part "Here it is.";
                                tool_part [image_item "not-valid-base64!!"]]]
                     default_output_filename world_with_old_file)
              = Raise Base64.incorrect_padding).
  { vm_compute. reflexivity. }
  assert (Hdec : forall v,
            scan_events
              [event_of [text_part "Here it is.";
                         tool_part [image_item "not-valid-base64!!"]]] JNull = Ok v ->
            truthy v = true -> exists e', b64decode v = Raise e').
  { intros v Hs _. vm_compute in Hs. inversion Hs.
    exists Base64.incorrect_padding. vm_compute. reflexivity. }
  split; [exact H|]. split; [exact Hdec|].
  destruct (X9_save_failure_hides_the_text _ _ _ _ H) as (_ & _ & Hw).
  rewrite (Hw Hdec). vm_compute. reflexivity.
Defined.

(** ** The text and the image are gathered independently *)

(** X10: the text of two runs of events put end to end is the text of
    the first followed by the text of the second. *)
Theorem X10_text_of_appended_events (events1 events2 : list Event) :
  final_response_text (events1 ++ events2)
  = final_response_text events1 +:+ final_response_text events2.
Proof.
  unfold final_response_text. rewrite !text_events_join.
  unfold extractText. rewrite flat_map_app. apply join_app.
Qed.

Lemma content_parts_map_parts (f : Part -> Part) (event : Event) :
  content_parts (map_parts f event) = option_map (List.map f) (content_parts event).
Proof.
  unfold content_parts, map_parts. cbn [content].
  destruct (content event) as [c|]; [|reflexivity]. cbn [parts].
  destruct (parts c) as [[|part rest]|]; reflexivity.
Qed.

(** X11: the scan for the image does not read the text of a part, and
    the text loops do not read its tool response: erasing every text
    leaves the result of the scan as it was, and erasing every tool
    response leaves the text as it was. *)
Theorem X11_scan_and_text_are_independent (events : list Event) (v : JVal) :
  scan_events (List.map (map_parts without_text) events) v = scan_events events v
  /\ final_response_text
       (List.map (map_parts without_function_response) events)
     = final_response_text events.
Proof.
  split.
  - assert (Hparts : forall ps v0,
              scan_parts (List.map without_text ps) v0 = scan_parts ps v0).
    { induction ps as [|part rest IH]; intros v0; [reflexivity|].
      cbn [List.map]. rewrite !scan_parts_cons.
      replace (part_content (without_text part)) with (part_content part)
        by reflexivity.
      replace (part_items (without_text part)) with (part_items part)
        by reflexivity.
      destruct (part_content part); [apply IH | reflexivity]. }
    revert v. induction events as [|event rest IH]; intros v; [reflexivity|].
    cbn [List.map scan_events]. rewrite content_parts_map_parts.
    destruct (content_parts event) as [ps|]; cbn [option_map]; [|apply IH].
    rewrite Hparts. destruct (scan_parts ps v) as [v0|e]; [|reflexivity].
    cbn [mbind Result_bind]. destruct (truthy v0); [reflexivity | apply IH].
  - unfold final_response_text. generalize "" as acc.
    assert (Hparts : forall ps acc,
              text_parts (List.map without_function_response ps) acc
              = text_parts ps acc).
    { induction ps as [|part rest IH]; intros acc; [reflexivity|].
      cbn [List.map text_parts without_function_response text].
      destruct (text part) as [t|]; [|apply IH].
      destruct (negb (String.eqb t "")); apply IH. }
    induction events as [|event rest IH]; intros acc; [reflexivity|].
    cbn [List.map text_events]. rewrite content_parts_map_parts.
    destruct (content_parts event) as [ps|]; cbn [option_map]; [|apply IH].
    rewrite Hparts. apply IH.
Qed.

(** ** The lenient decoder behind line 100 *)

Lemma a2b_loop_keep_significant (s : string) (quad_pos leftchar pads : N)
    (out : list byte) :
  Base64.a2b_loop (keep_significant s) quad_pos leftchar pads out
  = Base64.a2b_loop s quad_pos leftchar pads out.
Proof.
  revert quad_pos leftchar pads out.
  induction s as [|c rest IH]; intros quad_pos leftchar pads out; [reflexivity|].
  cbn [keep_significant]. unfold significant.
  destruct (Ascii.eqb c Base64.BASE64_PAD) eqn:Ec; cbn [orb].
  - cbn [Base64.a2b_loop]. rewrite Ec.
    repeat match goal with
           | |- context [if ?b then _ else _] => destruct b
           end; try reflexivity; apply IH.
  - destruct (Base64.table_a2b_base64 c) as [v|] eqn:Et.
    + cbn [Base64.a2b_loop]. rewrite Ec, Et.
      repeat match goal with
             | |- context [match ?x with _ => _ end] => destruct x
             end; apply IH.
    + cbn [Base64.a2b_loop]. rewrite Ec, Et. apply IH.
Qed.

Lemma all_ascii_keep_significant (s : string) :
  Base64.all_ascii s = true -> Base64.all_ascii (keep_significant s) = true.
Proof.
  induction s as [|c rest IH]; [reflexivity|].
  cbn [Base64.all_ascii keep_significant]. intros H.
  apply andb_true_iff in H as [Hc Hrest].
  destruct (significant c); [|now apply IH].
  cbn [Base64.all_ascii]. now rewrite Hc, IH.
Qed.

Lemma b64decode_str_keep_significant (s : string) :
  Base64.all_ascii s = true ->
  Base64.b64decode_str s = Base64.b64decode_str (keep_significant s).
Proof.
  intros H. unfold Base64.b64decode_str, Base64.a2b_base64.
  rewrite H, (all_ascii_keep_significant s H).
  now rewrite a2b_loop_keep_significant.
Qed.

(** A string selected by the scan is true. *)
Lemma scan_events_str_truthy (events : list Event) (s : string) :
  scan_events events JNull = Ok (JStr s) -> truthy (JStr s) = true.
Proof.
  intros H. destruct (scan_events_cases _ _ H) as [Hn|(it & _ & Him & ->)];
    [discriminate | now apply truthy_false_image].
Qed.

(** X12: image data broken by line ends, spaces or any other ASCII
    characters outside the base64 alphabet is saved all the same: when
    the characters of the alphabet and the pads of the selected data are
    the standard encoding of [x], the file receives exactly [x]. *)
Theorem X12_wrapped_data_is_saved (resolve : string -> string)
    (events : list Event) (path : string) (w : World) (s : string)
    (x : list byte) :
  scan_events events JNull = Ok (JStr s) ->
  Base64.all_ascii s = true ->
  keep_significant s = Base64.b64encode x ->
  path ∉ unwritable w ->
  save_image_from_response resolve events path w
  = (Ok (saved_status (resolve path)), with_file path x w).
Proof.
  intros Hscan Ha Hk Hw. rewrite save_image_from_response_cases, Hscan.
  rewrite (scan_events_str_truthy _ _ Hscan). cbn [b64decode].
  rewrite (b64decode_str_keep_significant s Ha), Hk.
  rewrite Base64Facts.b64decode_b64encode.
  now rewrite bool_decide_eq_false_2.
Qed.

Lemma X12_witness :
  scan_events
    [event_of [tool_part [image_item (String "010" "QU JD" +:+ String "013" "")]]]
    JNull
    = Ok (JStr (String "010" "QU JD" +:+ String "013" ""))
  /\ Base64.all_ascii (String "010" "QU JD" +:+ String "013" "") = true
  /\ keep_significant (String "010" "QU JD" +:+ String "013" "")
     = Base64.b64encode [x41; x42; x43]
  /\ (default_output_filename ∉ unwritable empty_world)
  /\ save_image_from_response (resolve_in "/work")
       [event_of [tool_part [image_item (String "010" "QU JD" +:+ String "013" "")]]]
       default_output_filename empty_world
     = (Ok (saved_status (resolve_in "/work" default_output_filename)),
        with_file default_output_filename [x41; x42; x43] empty_world).
Proof.
  split; [vm_compute; reflexivity|].
  split; [vm_compute; reflexivity|].
  split; [vm_compute; reflexivity|].
  split; [apply empty_world_writable|].
  apply (X12_wrapped_data_is_saved (resolve_in "/work") _
           default_output_filename empty_world
           (String "010" "QU JD" +:+ String "013" "") [x41; x42; x43]);
    [vm_compute; reflexivity | vm_compute; reflexivity
    | vm_compute; reflexivity | apply empty_world_writable].
Defined.

Module Base64More.
Import Base64 Sextets Base64Facts.
Local Open Scope N_scope.

Lemma append_String (c : ascii) (s1 s2 : string) :
  String c s1 +:+ s2 = String c (s1 +:+ s2).
Proof. reflexivity. Qed.

Lemma length_three_more {A : Type} (a b c : A) (l : list A) :
  (length (a :: b :: c :: l) mod 3 = length l mod 3)%nat.
Proof.
  cbn [length].
  replace (S (S (S (length l)))) with (length l + 1 * 3)%nat by lia.
  apply Nat.Div0.mod_add.
Qed.

(** The decoder on an encoding followed by more characters: after an
    encoding that ends on a pad nothing more is read; after one that does
    not, decoding goes on. *)
Lemma a2b_loop_b64encode_app (bs : list byte) (rest : string) (out : list byte) :
  a2b_loop (b64encode bs +:+ rest) 0 0 0 out =
  if (length bs mod 3 =? 0)%nat then a2b_loop rest 0 0 0 (out ++ bs)%list
  else Ok (out ++ bs)%list.
Proof.
  revert out. induction bs as [|a|a b|a b c l IH] using list_ind3; intros out.
  - cbn. now rewrite app_nil_r.
  - pose proof (to_N_lt a) as Ha.
    destruct (sextet_lt (Byte.to_N a) (Byte.to_N a)) as (L1 & _ & _ & _ & L5 & _);
      [lia | lia |].
    pose proof (regroup_ab_all (Byte.to_N a) (Byte.to_N a)) as R.
    unfold regroup_ab in R. rewrite !andb_true_iff, !N.eqb_eq in R.
    destruct R as [[_ _] R3]; [lia | lia |].
    cbn [b64encode]. rewrite !append_String. rewrite (a2b_loop_data _ _ 0) by exact L1.
    rewrite (a2b_loop_data _ _ 1) by exact L5.
    fold (s1 (Byte.to_N a)). rewrite R3, to_uchar_to_N. reflexivity.
  - pose proof (to_N_lt a) as Ha. pose proof (to_N_lt b) as Hb.
    destruct (sextet_lt (Byte.to_N a) (Byte.to_N b)) as (L1 & L2 & _); [lia | lia |].
    destruct (sextet_lt (Byte.to_N b) (Byte.to_N b)) as (_ & _ & _ & _ & _ & L6);
      [lia | lia |].
    pose proof (regroup_ab_all (Byte.to_N a) (Byte.to_N b)) as R.
    unfold regroup_ab in R. rewrite !andb_true_iff, !N.eqb_eq in R.
    destruct R as [[R1 R2] _]; [lia | lia |].
    pose proof (regroup_bc_all (Byte.to_N b) (Byte.to_N b)) as Q.
    unfold regroup_bc in Q. rewrite !andb_true_iff, !N.eqb_eq in Q.
    destruct Q as [_ Q4]; [lia | lia |].
    cbn [b64encode]. rewrite !append_String. rewrite (a2b_loop_data _ _ 0) by exact L1.
    fold (s2 (Byte.to_N a) (Byte.to_N b)).
    rewrite (a2b_loop_data _ _ 1) by exact L2.
    rewrite (a2b_loop_data _ _ 2) by exact L6.
    fold (s1 (Byte.to_N a)). rewrite R1, R2, Q4, !to_uchar_to_N.
    cbn. now rewrite <- app_assoc.
  - pose proof (to_N_lt a) as Ha. pose proof (to_N_lt b) as Hb.
    pose proof (to_N_lt c) as Hc.
    destruct (sextet_lt (Byte.to_N a) (Byte.to_N b)) as (L1 & L2 & _); [lia | lia |].
    destruct (sextet_lt (Byte.to_N b) (Byte.to_N c)) as (_ & _ & L3 & _); [lia | lia |].
    destruct (sextet_lt (Byte.to_N c) (Byte.to_N c)) as (_ & _ & _ & L4 & _); [lia | lia |].
    pose proof (regroup_ab_all (Byte.to_N a) (Byte.to_N b)) as R.
    unfold regroup_ab in R. rewrite !andb_true_iff, !N.eqb_eq in R.
    destruct R as [[R1 R2] _]; [lia | lia |].
    pose proof (regroup_bc_all (Byte.to_N b) (Byte.to_N c)) as Q.
    unfold regroup_bc in Q. rewrite !andb_true_iff, !N.eqb_eq in Q.
    destruct Q as [[[Q1 Q2] Q3] _]; [lia | lia |].
    rewrite length_three_more.
    cbn [b64encode]. rewrite !append_String. rewrite (a2b_loop_data _ _ 0) by exact L1.
    fold (s2 (Byte.to_N a) (Byte.to_N b)).
    rewrite (a2b_loop_data _ _ 1) by exact L2.
    fold (s3 (Byte.to_N b) (Byte.to_N c)).
    rewrite (a2b_loop_data _ _ 2) by exact L3.
    fold (s4 (Byte.to_N c)).
    rewrite (a2b_loop_data _ _ 3) by exact L4.
    fold (s1 (Byte.to_N a)). rewrite R1, R2, Q1, Q2, Q3, !to_uchar_to_N.
    rewrite IH. rewrite <- !app_assoc. reflexivity.
Qed.

Lemma all_ascii_app (s1 s2 : string) :
  all_ascii (s1 +:+ s2) = all_ascii s1 && all_ascii s2.
Proof.
  induction s1 as [|c s1 IH]; [reflexivity|].
  rewrite append_String. cbn [all_ascii]. now rewrite IH, andb_assoc.
Qed.

End Base64More.

(** X13: what follows an encoding that ends on a pad is never decoded.
    When the selected data is the standard encoding of [x], whose length
    is not a multiple of three, followed by any ASCII characters, the
    call saves exactly [x] and raises nothing, whatever those characters
    are. *)
Theorem X13_data_after_the_pad_is_dropped (resolve : string -> string)
    (events : list Event) (path : string) (w : World) (x : list byte)
    (tail : string) :
  scan_events events JNull = Ok (JStr (Base64.b64encode x +:+ tail)) ->
  (length x mod 3 <> 0)%nat ->
  Base64.all_ascii tail = true ->
  path ∉ unwritable w ->
  save_image_from_response resolve events path w
  = (Ok (saved_status (resolve path)), with_file path x w).
Proof.
  intros Hscan Hlen Ha Hw. rewrite save_image_from_response_cases, Hscan.
  rewrite (scan_events_str_truthy _ _ Hscan). cbn [b64decode].
  unfold Base64.b64decode_str, Base64.a2b_base64.
  rewrite Base64More.all_ascii_app, Base64Facts.all_ascii_b64encode, Ha.
  cbn [andb]. rewrite Base64More.a2b_loop_b64encode_app.
  apply Nat.eqb_neq in Hlen. rewrite Hlen. cbn [app].
  now rewrite bool_decide_eq_false_2.
Qed.

Lemma X13_witness :
  scan_events
    [event_of [tool_part [image_item (Base64.b64encode [x41] +:+ "QUJD!!!")]]]
    JNull
    = Ok (JStr (Base64.b64encode [x41] +:+ "QUJD!!!"))
  /\ (length [x41] mod 3 <> 0)%nat
  /\ Base64.all_ascii "QUJD!!!" = true
  /\ (default_output_filename ∉ unwritable empty_world)
  /\ save_image_from_response (resolve_in "/work")
       [event_of [tool_part [image_item (Base64.b64encode [x41] +:+ "QUJD!!!")]]]
       default_output_filename empty_world
     = (Ok (saved_status (resolve_in "/work" default_output_filename)),
        with_file default_output_filename [x41] empty_world).
Proof.
  split; [vm_compute; reflexivity|].
  split; [vm_compute; discriminate|].
  split; [vm_compute; reflexivity|].
  split; [apply empty_world_writable|].
  apply (X13_data_after_the_pad_is_dropped (resolve_in "/work") _
           default_output_filename empty_world [x41] "QUJD!!!");
    [vm_compute; reflexivity | vm_compute; discriminate
    | vm_compute; reflexivity | apply empty_world_writable].
Defined.

(** ** Trimming the text *)

Lemma rev_app_rev_app (s1 s2 s3 : string) :
  String.rev_app (String.rev_app s1 s2) s3 = String.rev_app s2 (s1 +:+ s3).
Proof.
  revert s2 s3. induction s1 as [|c s1 IH]; intros s2 s3; [reflexivity|].
  cbn [String.rev_app]. rewrite IH. reflexivity.
Qed.

Lemma rev_rev (s : string) : String.rev (String.rev s) = s.
Proof.
  unfold String.rev. rewrite rev_app_rev_app. cbn [String.rev_app].
  apply append_nil_r.
Qed.

Lemma rev_app_append (s1 s2 acc : string) :
  String.rev_app (s1 +:+ s2) acc = String.rev_app s2 (String.rev_app s1 acc).
Proof.
  revert acc. induction s1 as [|c s1 IH]; intros acc; [reflexivity|].
  rewrite Base64More.append_String. cbn [String.rev_app]. apply IH.
Qed.

Lemma rev_app_as_append (s acc : string) :
  String.rev_app s acc = String.rev s +:+ acc.
Proof.
  unfold String.rev. revert acc.
  induction s as [|c s IH]; intros acc; [reflexivity|].
  cbn [String.rev_app]. rewrite IH, (IH (String c "")).
  now rewrite append_assoc.
Qed.

Lemma lstrip_start (s : string) : starts_with_space (lstrip s) = false.
Proof.
  induction s as [|c s IH]; [reflexivity|].
  cbn [lstrip]. destruct (isspace c) eqn:E; [exact IH|].
  cbn [starts_with_space]. exact E.
Qed.

Lemma lstrip_id (s : string) : starts_with_space s = false -> lstrip s = s.
Proof. destruct s as [|c s]; [reflexivity|]. cbn. now intros ->. Qed.

Lemma lstrip_keeps_last (s : string) (c : ascii) :
  isspace c = false -> lstrip (s +:+ String c "") = lstrip s +:+ String c "".
Proof.
  intros Hc. induction s as [|d s IH].
  - cbn [lstrip]. change ("" +:+ String c "") with (String c "").
    cbn [lstrip]. now rewrite Hc.
  - rewrite Base64More.append_String. cbn [lstrip].
    destruct (isspace d); [exact IH | reflexivity].
Qed.

(** Trimming at the end keeps a start that is not white space. *)
Lemma rstrip_start (s : string) :
  starts_with_space s = false ->
  starts_with_space (String.rev (lstrip (String.rev s))) = false.
Proof.
  destruct s as [|c s]; [reflexivity|]. cbn [starts_with_space]. intros Hc.
  unfold String.rev at 2. cbn [String.rev_app]. rewrite rev_app_as_append.
  rewrite (lstrip_keeps_last _ _ Hc).
  unfold String.rev. rewrite rev_app_append. cbn [String.rev_app].
  cbn [starts_with_space]. exact Hc.
Qed.

(** X14: [strip], applied by [main] to the text it prints, returns a
    string with no white space at either end; a string that has none is
    returned as it is, so that trimming twice is trimming once. *)
Theorem X14_strip_trims_both_ends :
  (forall s : string,
     starts_with_space (strip s) = false
     /\ starts_with_space (String.rev (strip s)) = false
     /\ strip (strip s) = strip s)
  /\ (forall s : string,
        starts_with_space s = false ->
        starts_with_space (String.rev s) = false ->
        strip s = s).
Proof.
  assert (Hid : forall s, starts_with_space s = false ->
                  starts_with_space (String.rev s) = false -> strip s = s).
  { intros s Hs He. unfold strip.
    rewrite (lstrip_id s Hs), (lstrip_id _ He). apply rev_rev. }
  assert (Hstart : forall s, starts_with_space (strip s) = false).
  { intros s. unfold strip. apply rstrip_start, lstrip_start. }
  assert (Hend : forall s, starts_with_space (String.rev (strip s)) = false).
  { intros s. unfold strip. rewrite rev_rev. apply lstrip_start. }
  split; [|exact Hid].
  intros s. split; [apply Hstart|]. split; [apply Hend|].
  apply Hid; [apply Hstart | apply Hend].
Qed.

Lemma X14_witness :
  strip (String "009" " Here is your image. " +:+ String "010" "")
    = "Here is your image."
  /\ starts_with_space "Here is your image." = false
  /\ starts_with_space (String.rev "Here is your image.") = false
  /\ strip "Here is your image." = "Here is your image.".
Proof.
  destruct X14_strip_trims_both_ends as [_ Hid].
  split; [vm_compute; reflexivity|].
  split; [reflexivity|]. split; [vm_compute; reflexivity|].
  apply Hid; vm_compute; reflexivity.
Defined.

(** ** More on the parts of one event and on the top level *)

Lemma find_image_of_has_image (items : list Item) :
  no_image items = false ->
  exists item, List.find is_image_item items = Some item
               /\ is_image_item item = true.
Proof.
  induction items as [|item rest IH]; [discriminate|].
  cbn [no_image forallb List.find].
  destruct (is_image_item item) eqn:E; cbn [negb andb]; [eauto|].
  exact IH.
Qed.

(** X15: within one event, the last part that holds an image item
    decides: the loop over the parts ends with the data of the first
    image item of that part, whatever the parts before it hold. *)
Theorem X15_last_image_part_decides (before after : list Part) (part : Part)
    (v : JVal) :
  forallb response_present (before ++ part :: after) = true ->
  has_image part = true ->
  List.filter has_image after = [] ->
  scan_parts (before ++ part :: after) v
    = Ok (scan_items (part_items part) JNull)
  /\ truthy (scan_items (part_items part) JNull) = true.
Proof.
  intros Hp Himg Hafter.
  unfold has_image in Himg. apply negb_true_iff in Himg.
  destruct (find_image_of_has_image _ Himg) as (item & Hfind & Hitem).
  rewrite (scan_parts_fold _ _ Hp), fold_left_app. cbn [fold_left].
  rewrite (fold_scan_no_image _ _ Hafter).
  rewrite !scan_items_find, Hfind.
  split; [reflexivity | now apply truthy_false_image].
Qed.

Lemma X15_witness :
  forallb response_present
    ([tool_part [image_item "QUJD"]; text_part "between"]
     ++ tool_part [text_item; image_item "REVG"; image_item "R0hJ"]
     :: [tool_part [text_item]]) = true
  /\ has_image (tool_part [text_item; image_item "REVG"; image_item "R0hJ"])
     = true
  /\ List.filter has_image [tool_part [text_item]] = []
  /\ scan_parts
       ([tool_part [image_item "QUJD"]; text_part "between"]
        ++ tool_part [text_item; image_item "REVG"; image_item "R0hJ"]
        :: [tool_part [text_item]]) JNull
     = Ok (JStr "REVG").
Proof.
  split; [vm_compute; reflexivity|].
  split; [vm_compute; reflexivity|].
  split; [vm_compute; reflexivity|].
  destruct (X15_last_image_part_decides
              [tool_part [image_item "QUJD"]; text_part "between"]
              [tool_part [text_item]]
              (tool_part [text_item; image_item "REVG"; image_item "R0hJ"])
              JNull) as [Hscan _];
    [vm_compute; reflexivity | vm_compute; reflexivity
    | vm_compute; reflexivity |].
  rewrite Hscan. vm_compute. reflexivity.
Defined.

(** X16: when the awaited run itself raises an exception group, the
    script completes and prints the cleanup notice, whose first line says
    that the image was saved, although the call that saves it was never
    reached: only the two opening lines came before, and no file is
    changed. *)
Theorem X16_group_from_the_run_is_reported_as_success
    (resolve : string -> string) (w : World) (e : PyExc) :
  isinstance e BaseExceptionGroup = true ->
  script resolve (Raise e) None w
    = (Completed, print_all cleanup_lines (print_all opening_lines w))
  /\ files (snd (script resolve (Raise e) None w)) = files w.
Proof.
  intros Hg.
  assert (H : script resolve (Raise e) None w
              = (Completed, print_all cleanup_lines (print_all opening_lines w))).
  { unfold script, asyncio_run_main, main, mbind, M_bind, print, lift, handle.
    cbn [files unwritable stdout]. rewrite Hg. unfold print_all, opening_lines.
    cbn [files unwritable stdout]. now rewrite <- (app_assoc (stdout w)). }
  split; [exact H | now rewrite H].
Qed.

Lemma X16_witness :
  isinstance (mkExc ExceptionGroup "unhandled errors in a TaskGroup")
    BaseExceptionGroup = true
  /\ script (resolve_in "/work")
       (Raise (mkExc ExceptionGroup "unhandled errors in a TaskGroup")) None
       world_with_old_file
     = (Completed,
        {| files := {[ default_output_filename := [x6f; x6c; x64] ]};
           unwritable := ∅;
           stdout := opening_lines ++ cleanup_lines |}).
Proof.
  assert (Hg : isinstance (mkExc ExceptionGroup "unhandled errors in a TaskGroup")
                 BaseExceptionGroup = true) by reflexivity.
  split; [exact Hg|].
  destruct (X16_group_from_the_run_is_reported_as_success (resolve_in "/work")
              world_with_old_file _ Hg) as [H _].
  rewrite H. vm_compute. reflexivity.
Defined.

(** X17: a run without any image item is no failure: the script
    completes, the agent's text is printed, trimmed, between the rules,
    the saving status is the not-found status, and no file is changed. *)
Theorem X17_run_without_image_prints_the_text (resolve : string -> string)
    (events : list Event) (w : World) :
  responses_present events = true ->
  no_image (all_items events) = true ->
  script resolve (Ok events) None w
  = (Completed,
     print_all
       [ rule;
         "Agent Final Text Response: " +:+ strip (final_response_text events);
         "Image Saving Status: " +:+ not_found_status;
         rule ]
       (print_all opening_lines w)).
Proof.
  intros Hp Hn. unfold script, asyncio_run_main, mbind, M_bind.
  rewrite main_cases. fold opening_lines.
  rewrite save_image_from_response_cases, (scan_events_no_image _ Hp Hn).
  reflexivity.
Qed.

Lemma X17_witness :
  responses_present [event_of [text_part " No image today. "]] = true
  /\ no_image (all_items [event_of [text_part " No image today. "]]) = true
  /\ script (resolve_in "/work") (Ok [event_of [text_part " No image today. "]])
       None empty_world
     = (Completed,
        {| files := ∅; unwritable := ∅;
           stdout := opening_lines ++
                     [ rule;
                       "Agent Final Text Response: No image today.";
                       "Image Saving Status: No image data found in the agent's tool response.";
                       rule ] |}).
Proof.
  split; [vm_compute; reflexivity|].
  split; [vm_compute; reflexivity|].
  rewrite (X17_run_without_image_prints_the_text (resolve_in "/work")
             [event_of [text_part " No image today. "]] empty_world);
    vm_compute; reflexivity.
Defined.
